(** * Habit-Flow: the state hooks and the dashboard metrics

    A shallow embedding of
    - [src/types/habit.ts]            the record types,
    - [src/hooks/useHabits.ts]        the localStorage-backed hook (its state
                                      transitions; the effects that save and
                                      restore the cells are left out),
    - [src/hooks/useHabitsDb.ts]      the remote-backed hook,
    - the schema migration            the five tables and their constraints,
    - the Dashboard page              [completionRate] and [calculateStreak],
    - the components over the hook    the handlers of [SleepTracker],
                                      [HabitGrid] and [CalendarView],
    - [src/pages/Analytics.tsx]       the charts and the summary figures,
    followed by the properties of the specification that concern them and by
    further properties of the code. *)

From Stdlib Require Import ZArith QArith Qround Qcanon Lia Lqa.
From stdpp Require Import base tactics option list strings numbers sorting pretty.

Set Default Proof Using "Type".
Local Open Scope Z_scope.

(** ** Record types ([src/types/habit.ts])

    A [Date] is kept as its time value (milliseconds since the epoch), a date
    string ["YYYY-MM-DD"] as a [string] compared with [===], and a finite
    [number] of hours as a rational. *)

Definition Date := Z.

Module Habit.
Record t := mk {
  id : string;
  name : string;
  color : string;
  createdAt : Date;
  completedDays : list string;
}.
End Habit.

Module SleepEntry.
Record t := mk {
  date : string;
  hours : Qc;
}.
End SleepEntry.

Module CalendarTask.
Record t := mk {
  id : string;
  title : string;
  date : string;
  completed : bool;
  color : option string;   (* [color?: string] *)
}.
End CalendarTask.

Module Note.
Record t := mk {
  id : string;
  content : string;
  date : string;
  createdAt : Date;
}.
End Note.

Global Instance Habit_eq_dec : EqDecision Habit.t.
Proof. solve_decision. Defined.
Global Instance SleepEntry_eq_dec : EqDecision SleepEntry.t.
Proof. solve_decision. Defined.
Global Instance CalendarTask_eq_dec : EqDecision CalendarTask.t.
Proof. solve_decision. Defined.
Global Instance Note_eq_dec : EqDecision Note.t.
Proof. solve_decision. Defined.

(** [Partial<Omit<Habit, 'id' | 'createdAt'>>]: every remaining field of a
    habit may be present or absent. *)
Module HabitUpdates.
Record t := mk {
  name : option string;
  color : option string;
  completedDays : option (list string);
}.
End HabitUpdates.

(** [Partial<Omit<CalendarTask, 'id'>>]. *)
Module TaskUpdates.
Record t := mk {
  title : option string;
  date : option string;
  completed : option bool;
  color : option string;
}.
End TaskUpdates.

(** The object spreads [{ ...h, ...updates }], [{ ...t, ...updates }] and
    [{ ...n, content }]: a key present on the right replaces the one on the
    left. *)
Definition spread_habit (h : Habit.t) (updates : HabitUpdates.t) : Habit.t :=
  {| Habit.id := Habit.id h;
     Habit.name := default (Habit.name h) (HabitUpdates.name updates);
     Habit.color := default (Habit.color h) (HabitUpdates.color updates);
     Habit.createdAt := Habit.createdAt h;
     Habit.completedDays :=
       default (Habit.completedDays h) (HabitUpdates.completedDays updates) |}.

Definition spread_task (t : CalendarTask.t) (updates : TaskUpdates.t)
  : CalendarTask.t :=
  {| CalendarTask.id := CalendarTask.id t;
     CalendarTask.title :=
       default (CalendarTask.title t) (TaskUpdates.title updates);
     CalendarTask.date :=
       default (CalendarTask.date t) (TaskUpdates.date updates);
     CalendarTask.completed :=
       default (CalendarTask.completed t) (TaskUpdates.completed updates);
     CalendarTask.color :=
       match TaskUpdates.color updates with
       | Some c => Some c
       | None => CalendarTask.color t
       end |}.

Definition spread_note (n : Note.t) (content : string) : Note.t :=
  {| Note.id := Note.id n;
     Note.content := content;
     Note.date := Note.date n;
     Note.createdAt := Note.createdAt n |}.

(** The four [useState] cells both hooks keep. *)
Record Collections := mkCollections {
  habits : list Habit.t;
  sleepEntries : list SleepEntry.t;
  tasks : list CalendarTask.t;
  notes : list Note.t;
}.

Definition emptyCollections : Collections := mkCollections [] [] [] [].

(** [setX(prev => f(prev))] *)
Definition setHabits (f : list Habit.t → list Habit.t) (c : Collections) :=
  mkCollections (f (habits c)) (sleepEntries c) (tasks c) (notes c).
Definition setSleepEntries (f : list SleepEntry.t → list SleepEntry.t)
    (c : Collections) :=
  mkCollections (habits c) (f (sleepEntries c)) (tasks c) (notes c).
Definition setTasks (f : list CalendarTask.t → list CalendarTask.t)
    (c : Collections) :=
  mkCollections (habits c) (sleepEntries c) (f (tasks c)) (notes c).
Definition setNotes (f : list Note.t → list Note.t) (c : Collections) :=
  mkCollections (habits c) (sleepEntries c) (tasks c) (f (notes c)).

(** [completedDays.includes(date)] *)
Definition includes (days : list string) (date : string) : bool :=
  bool_decide (date ∈ days).


(** What [updateHabit] may change between the value [a] of a habit before
    and its value [b] after: nothing when its identifier differs from [id],
    never the identifier or the creation time, and the completion list only
    when [updates] carries one. *)
Definition updateFrame (id : string) (updates : HabitUpdates.t)
    (a b : Habit.t) : Prop :=
  Habit.id b = Habit.id a
  ∧ Habit.createdAt b = Habit.createdAt a
  ∧ (Habit.id a ≠ id → b = a)
  ∧ (HabitUpdates.completedDays updates = None →
     Habit.completedDays b = Habit.completedDays a).

(** ** The localStorage-backed hook ([src/hooks/useHabits.ts])

    Each callback is the state transition its [setX] updater performs.
    [crypto.randomUUID()] and [new Date()] are arguments. *)
Module UseHabits.

Definition addHabit (uuid : string) (now : Date) (name color : string)
  : Collections → Collections :=
  setHabits (λ prev, prev ++ [Habit.mk uuid name color now []]).

Definition updateHabit (id : string) (updates : HabitUpdates.t)
  : Collections → Collections :=
  setHabits (λ prev,
    (λ habit, if decide (Habit.id habit = id)
              then spread_habit habit updates else habit) <$> prev).

Definition deleteHabit (id : string) : Collections → Collections :=
  setHabits (λ prev, filter (λ habit, Habit.id habit ≠ id) prev).

Definition toggleHabitDay (habitId date : string)
  : Collections → Collections :=
  setHabits (λ prev,
    (λ habit,
       if decide (Habit.id habit ≠ habitId) then habit
       else
         let isCompleted := includes (Habit.completedDays habit) date in
         Habit.mk (Habit.id habit) (Habit.name habit) (Habit.color habit)
           (Habit.createdAt habit)
           (if isCompleted
            then filter (λ d, d ≠ date) (Habit.completedDays habit)
            else Habit.completedDays habit ++ [date])) <$> prev).

Definition addSleepEntry (date : string) (hours : Qc)
  : Collections → Collections :=
  setSleepEntries (λ prev,
    match list_find (λ e, SleepEntry.date e = date) prev with
    | Some (existing, _) => <[existing := SleepEntry.mk date hours]> prev
    | None => prev ++ [SleepEntry.mk date hours]
    end).

Definition addTask (uuid : string) (title date : string)
    (color : option string) : Collections → Collections :=
  setTasks (λ prev, prev ++ [CalendarTask.mk uuid title date false color]).

Definition updateTask (id : string) (updates : TaskUpdates.t)
  : Collections → Collections :=
  setTasks (λ prev,
    (λ task, if decide (CalendarTask.id task = id)
             then spread_task task updates else task) <$> prev).

Definition deleteTask (id : string) : Collections → Collections :=
  setTasks (λ prev, filter (λ task, CalendarTask.id task ≠ id) prev).

Definition addNote (uuid : string) (now : Date) (content date : string)
  : Collections → Collections :=
  setNotes (λ prev, prev ++ [Note.mk uuid content date now]).

Definition updateNote (id content : string) : Collections → Collections :=
  setNotes (λ prev,
    (λ note, if decide (Note.id note = id)
             then spread_note note content else note) <$> prev).

Definition deleteNote (id : string) : Collections → Collections :=
  setNotes (λ prev, filter (λ note, Note.id note ≠ id) prev).

End UseHabits.

(** ** Dashboard metrics

    The quotient of [completionRate] is taken in exact rational arithmetic
    (the program computes it in double precision, which can only move a
    result that lies exactly between two integers); [Math.round] rounds to
    the nearest integer, a tie upwards. *)
Module Dashboard.

Definition Math_round (x : Q) : Z := Qfloor (x + (1 # 2))%Q.

Definition totalHabits (habits : list Habit.t) : Z := Z.of_nat (length habits).

Definition completedToday (habits : list Habit.t) (today : string) : Z :=
  Z.of_nat (length
    (filter (λ h, includes (Habit.completedDays h) today = true) habits)).

Definition completionRate (habits : list Habit.t) (today : string) : Z :=
  if decide (totalHabits habits > 0)
  then Math_round
         ((inject_Z (completedToday habits today)
           / inject_Z (totalHabits habits)) * inject_Z 100)%Q
  else 0.

Section Streak.
(** Calendar days are numbered; [format n] is
    [format(date, 'yyyy-MM-dd')] for the day numbered [n], and
    [date.setDate(date.getDate() - 1)] moves to the day numbered
    [n - 1]. *)
Variable format : Z → string.

Definition anyCompleted (habits : list Habit.t) (dateStr : string) : bool :=
  bool_decide
    (Exists (λ h, includes (Habit.completedDays h) dateStr = true) habits).

(** The body of [while (true)]; [None] when the fuel runs out before the
    [break]. *)
Fixpoint streakLoop (fuel : nat) (habits : list Habit.t) (date : Z)
    (streak : nat) : option nat :=
  match fuel with
  | O => None
  | S fuel' =>
      let dateStr := format date in
      if negb (anyCompleted habits dateStr) then Some streak
      else streakLoop fuel' habits (date - 1) (S streak)
  end.

Definition calculateStreak (fuel : nat) (habits : list Habit.t)
    (today : Z) : option nat :=
  if decide (length habits = 0%nat) then Some 0%nat
  else streakLoop fuel habits today 0.
End Streak.

(** Every recorded completion date, habit after habit. *)
Definition allCompletions (habits : list Habit.t) : list string :=
  habits ≫= Habit.completedDays.

End Dashboard.

(** ** The remote tables (schema migration)

    One record per table; [created_at] is the timestamp the store assigns,
    [color] of a task is nullable. *)
Module HabitsRow.
Record t := mk {
  id : string; user_id : string; name : string; color : string;
  created_at : Date;
}.
End HabitsRow.

Module HabitCompletionsRow.
Record t := mk {
  id : string; habit_id : string; user_id : string; date : string;
  created_at : Date;
}.
End HabitCompletionsRow.

Module SleepEntriesRow.
Record t := mk {
  id : string; user_id : string; date : string; hours : Qc;
  created_at : Date;
}.
End SleepEntriesRow.

Module TasksRow.
Record t := mk {
  id : string; user_id : string; title : string; date : string;
  completed : bool; color : option string; created_at : Date;
}.
End TasksRow.

Module NotesRow.
Record t := mk {
  id : string; user_id : string; content : string; date : string;
  created_at : Date;
}.
End NotesRow.

(** ** The remote-backed hook ([src/hooks/useHabitsDb.ts]) *)
Module UseHabitsDb.

(** The calls the hook makes on the [supabase] client, indexed by the type
    of [data] in the answer. *)
Inductive Request : Type → Type :=
| SelectHabits (user_id : string) : Request (list HabitsRow.t)
| SelectCompletions (user_id : string) : Request (list HabitCompletionsRow.t)
| SelectSleep (user_id : string) : Request (list SleepEntriesRow.t)
| SelectTasks (user_id : string) : Request (list TasksRow.t)
| SelectNotes (user_id : string) : Request (list NotesRow.t)
| InsertHabit (name color user_id : string) : Request HabitsRow.t
| UpdateHabit (id user_id : string) (name color : option string)
    : Request unit
| DeleteHabit (id user_id : string) : Request unit
| DeleteCompletion (habit_id date user_id : string) : Request unit
| InsertCompletion (habit_id date user_id : string) : Request unit
| UpsertSleep (date : string) (hours : Qc) (user_id : string) : Request unit
| InsertTask (title date : string) (color : option string)
    (user_id : string) : Request TasksRow.t
| UpdateTask (id user_id : string) (updates : TaskUpdates.t) : Request unit
| DeleteTask (id user_id : string) : Request unit
| InsertNote (content date user_id : string) : Request NotesRow.t
| UpdateNote (id user_id content : string) : Request unit
| DeleteNote (id user_id : string) : Request unit.

(** [{ data, error }] *)
Inductive Result (R : Type) : Type :=
| Data (data : R)
| Error (error : string).
Global Arguments Data {R} data.
Global Arguments Error {R} error.

Definition isData {R} (r : Result R) : bool :=
  match r with Data _ => true | Error _ => false end.

(** The hook's cells: the four collections, [loading] and the
    [initialLoadComplete] ref. *)
Record Hook := mkHook {
  data : Collections;
  loading : bool;
  initialLoadComplete : bool;
}.

Definition initialHook : Hook := mkHook emptyCollections true false.

Definition setData (f : Collections → Collections) (st : Hook) : Hook :=
  mkHook (f (data st)) (loading st) (initialLoadComplete st).
Definition setLoading (b : bool) (st : Hook) : Hook :=
  mkHook (data st) b (initialLoadComplete st).
Definition setInitialLoadComplete (b : bool) (st : Hook) : Hook :=
  mkHook (data st) (loading st) b.

(** An [async] callback: it ends, updates a cell, raises a notice, or awaits
    the answer to a request and goes on with it. *)
Inductive Prog : Type :=
| Done
| SetState (f : Hook → Hook) (k : Prog)
| ToastError (msg : string) (k : Prog)
| ToastSuccess (msg : string) (k : Prog)
| ConsoleError (msg : string) (k : Prog)
| Await {R : Type} (q : Request R) (k : Result R → Prog).

(** *** [fetchData] *)

Definition habitsWithCompletions (habitsData : list HabitsRow.t)
    (completionsData : list HabitCompletionsRow.t) : list Habit.t :=
  (λ h, {| Habit.id := HabitsRow.id h;
           Habit.name := HabitsRow.name h;
           Habit.color := HabitsRow.color h;
           Habit.createdAt := HabitsRow.created_at h;
           Habit.completedDays :=
             HabitCompletionsRow.date <$>
               filter (λ c, HabitCompletionsRow.habit_id c = HabitsRow.id h)
                 completionsData |}) <$> habitsData.

Definition sleepOfRow (s : SleepEntriesRow.t) : SleepEntry.t :=
  SleepEntry.mk (SleepEntriesRow.date s) (SleepEntriesRow.hours s).

(** [t.color || undefined]: [null] and the empty string both give
    [undefined]. *)
Definition colorOrUndefined (c : option string) : option string :=
  match c with
  | Some s => if decide (s = EmptyString) then None else Some s
  | None => None
  end.

Definition taskOfRow (t : TasksRow.t) : CalendarTask.t :=
  CalendarTask.mk (TasksRow.id t) (TasksRow.title t) (TasksRow.date t)
    (TasksRow.completed t) (colorOrUndefined (TasksRow.color t)).

Definition noteOfRow (n : NotesRow.t) : Note.t :=
  Note.mk (NotesRow.id n) (NotesRow.content n) (NotesRow.date n)
    (NotesRow.created_at n).

Definition fetchData (user : option string) : Prog :=
  let finally := SetState (setLoading false) Done in
  let catch := ConsoleError "Error fetching data:"
                 (ToastError "Failed to load data" finally) in
  match user with
  | None =>
      SetState (setData (setHabits (λ _, [])))
        (SetState (setData (setSleepEntries (λ _, [])))
           (SetState (setData (setTasks (λ _, [])))
              (SetState (setData (setNotes (λ _, [])))
                 (SetState (setLoading false) Done))))
  | Some uid =>
      Await (SelectHabits uid) (λ r,
      match r with Error _ => catch | Data habitsData =>
      Await (SelectCompletions uid) (λ r,
      match r with Error _ => catch | Data completionsData =>
      SetState (setData (setHabits (λ _,
                  habitsWithCompletions habitsData completionsData)))
      (Await (SelectSleep uid) (λ r,
      match r with Error _ => catch | Data sleepData =>
      SetState (setData (setSleepEntries (λ _, sleepOfRow <$> sleepData)))
      (Await (SelectTasks uid) (λ r,
      match r with Error _ => catch | Data tasksData =>
      SetState (setData (setTasks (λ _, taskOfRow <$> tasksData)))
      (Await (SelectNotes uid) (λ r,
      match r with Error _ => catch | Data notesData =>
      SetState (setData (setNotes (λ _, noteOfRow <$> notesData)))
      (SetState (setInitialLoadComplete true) finally)
      end))
      end))
      end))
      end)
      end)
  end.

(** *** Habit operations *)

Definition addHabit (user : option string) (name color : string) : Prog :=
  match user with
  | None => Done
  | Some uid =>
      Await (InsertHabit name color uid) (λ r,
      match r with
      | Error _ => ToastError "Failed to add habit" Done
      | Data row =>
          SetState (setData (setHabits (λ prev,
            prev ++ [Habit.mk (HabitsRow.id row) (HabitsRow.name row)
                       (HabitsRow.color row) (HabitsRow.created_at row) []])))
            (ToastSuccess "Habit added!" Done)
      end)
  end.

Definition updateHabit (user : option string) (id : string)
    (updates : HabitUpdates.t) : Prog :=
  match user with
  | None => Done
  | Some uid =>
      Await (UpdateHabit id uid (HabitUpdates.name updates)
               (HabitUpdates.color updates)) (λ r,
      match r with
      | Error _ => ToastError "Failed to update habit" Done
      | Data _ =>
          SetState (setData (setHabits (λ prev,
            (λ h, if decide (Habit.id h = id)
                  then spread_habit h updates else h) <$> prev))) Done
      end)
  end.

Definition deleteHabit (user : option string) (id : string) : Prog :=
  match user with
  | None => Done
  | Some uid =>
      Await (DeleteHabit id uid) (λ r,
      match r with
      | Error _ => ToastError "Failed to delete habit" Done
      | Data _ =>
          SetState (setData (setHabits (λ prev,
            filter (λ h, Habit.id h ≠ id) prev)))
            (ToastSuccess "Habit deleted" Done)
      end)
  end.

(** The patch [toggleHabitDay] applies once the remote call succeeded;
    [isCompleted] was computed before the call. *)
Definition togglePatch (isCompleted : bool) (habitId date : string)
    (prev : list Habit.t) : list Habit.t :=
  (λ h, if decide (Habit.id h ≠ habitId) then h
        else Habit.mk (Habit.id h) (Habit.name h) (Habit.color h)
               (Habit.createdAt h)
               (if isCompleted
                then filter (λ d, d ≠ date) (Habit.completedDays h)
                else Habit.completedDays h ++ [date])) <$> prev.

(** [habits] is the value of the cell in the render that created the
    callback. *)
Definition toggleHabitDay (user : option string) (habits : list Habit.t)
    (habitId date : string) : Prog :=
  match user with
  | None => Done
  | Some uid =>
      match list_find (λ h, Habit.id h = habitId) habits with
      | None => Done
      | Some (_, habit) =>
          let isCompleted := includes (Habit.completedDays habit) date in
          let patch :=
            SetState (setData (setHabits
              (togglePatch isCompleted habitId date))) Done in
          if isCompleted then
            Await (DeleteCompletion habitId date uid) (λ r,
            match r with
            | Error _ => ToastError "Failed to update" Done
            | Data _ => patch
            end)
          else
            Await (InsertCompletion habitId date uid) (λ r,
            match r with
            | Error _ => ToastError "Failed to update" Done
            | Data _ => patch
            end)
      end
  end.

(** *** Sleep operations *)

Definition addSleepEntry (user : option string) (date : string)
    (hours : Qc) : Prog :=
  match user with
  | None => Done
  | Some uid =>
      Await (UpsertSleep date hours uid) (λ r,
      match r with
      | Error _ => ToastError "Failed to save sleep entry" Done
      | Data _ =>
          SetState (setData (setSleepEntries (λ prev,
            match list_find (λ e, SleepEntry.date e = date) prev with
            | Some (existing, _) =>
                <[existing := SleepEntry.mk date hours]> prev
            | None => prev ++ [SleepEntry.mk date hours]
            end))) Done
      end)
  end.

(** *** Task operations *)

Definition addTask (user : option string) (title date : string)
    (color : option string) : Prog :=
  match user with
  | None => Done
  | Some uid =>
      Await (InsertTask title date color uid) (λ r,
      match r with
      | Error _ => ToastError "Failed to add task" Done
      | Data row =>
          SetState (setData (setTasks (λ prev, prev ++ [taskOfRow row])))
            Done
      end)
  end.

Definition updateTask (user : option string) (id : string)
    (updates : TaskUpdates.t) : Prog :=
  match user with
  | None => Done
  | Some uid =>
      Await (UpdateTask id uid updates) (λ r,
      match r with
      | Error _ => ToastError "Failed to update task" Done
      | Data _ =>
          SetState (setData (setTasks (λ prev,
            (λ t, if decide (CalendarTask.id t = id)
                  then spread_task t updates else t) <$> prev))) Done
      end)
  end.

Definition deleteTask (user : option string) (id : string) : Prog :=
  match user with
  | None => Done
  | Some uid =>
      Await (DeleteTask id uid) (λ r,
      match r with
      | Error _ => ToastError "Failed to delete task" Done
      | Data _ =>
          SetState (setData (setTasks (λ prev,
            filter (λ t, CalendarTask.id t ≠ id) prev))) Done
      end)
  end.

(** *** Note operations *)

Definition addNote (user : option string) (content date : string) : Prog :=
  match user with
  | None => Done
  | Some uid =>
      Await (InsertNote content date uid) (λ r,
      match r with
      | Error _ => ToastError "Failed to add note" Done
      | Data row =>
          SetState (setData (setNotes (λ prev, noteOfRow row :: prev))) Done
      end)
  end.

Definition updateNote (user : option string) (id content : string) : Prog :=
  match user with
  | None => Done
  | Some uid =>
      Await (UpdateNote id uid content) (λ r,
      match r with
      | Error _ => ToastError "Failed to update note" Done
      | Data _ =>
          SetState (setData (setNotes (λ prev,
            (λ n, if decide (Note.id n = id)
                  then spread_note n content else n) <$> prev))) Done
      end)
  end.

Definition deleteNote (user : option string) (id : string) : Prog :=
  match user with
  | None => Done
  | Some uid =>
      Await (DeleteNote id uid) (λ r,
      match r with
      | Error _ => ToastError "Failed to delete note" Done
      | Data _ =>
          SetState (setData (setNotes (λ prev,
            filter (λ n, Note.id n ≠ id) prev))) Done
      end)
  end.

(** *** Running a callback against a server

    The server is any state [S] with a function answering requests.  The
    trace records every remote round trip with whether it was answered
    with [data], and every notice, in order. *)
Inductive AnyRequest : Type :=
| anyRequest {R : Type} (q : Request R).

Inductive Event : Type :=
| EvRemote (q : AnyRequest) (ok : bool)
| EvToastError (msg : string)
| EvToastSuccess (msg : string)
| EvConsoleError (msg : string).

Record Outcome (S : Type) := mkOutcome {
  final : Hook;
  server : S;
  trace : list Event;
}.
Global Arguments mkOutcome {S} _ _ _.
Global Arguments final {S} _.
Global Arguments server {S} _.
Global Arguments trace {S} _.

Definition emit {S} (e : Event) (o : Outcome S) : Outcome S :=
  mkOutcome (final o) (server o) (e :: trace o).

Section Run.
Context {S : Type}.
Variable serve : ∀ R, Request R → S → Result R * S.

Fixpoint run (p : Prog) (srv : S) (st : Hook) : Outcome S :=
  match p with
  | Done => mkOutcome st srv []
  | SetState f k => run k srv (f st)
  | ToastError msg k => emit (EvToastError msg) (run k srv st)
  | ToastSuccess msg k => emit (EvToastSuccess msg) (run k srv st)
  | ConsoleError msg k => emit (EvConsoleError msg) (run k srv st)
  | Await q k =>
      let '(r, srv') := serve _ q srv in
      emit (EvRemote (anyRequest q) (isData r)) (run (k r) srv' st)
  end.
End Run.

(** The remote round trips of a trace, and whether all were answered with
    [data]. *)
Definition isRemote (e : Event) : bool :=
  match e with EvRemote _ _ => true | _ => false end.

Definition remoteCalls (tr : list Event) : list Event :=
  filter (λ e, isRemote e = true) tr.

Definition remoteFailed (e : Event) : bool :=
  match e with EvRemote _ false => true | _ => false end.

Definition allSucceeded (tr : list Event) : bool :=
  forallb (λ e, negb (remoteFailed e)) tr.

(** What a callback other than [fetchData] can do, from the server [srv]
    and the cells [st]: nothing at all; one refused round trip and an error
    notice; or one answered round trip followed by its patch and notices. *)
Inductive MutationOutcome {S} (srv : S) (st : Hook) (o : Outcome S) : Prop :=
| NoCall :
    trace o = [] → final o = st → server o = srv →
    MutationOutcome srv st o
| Refused (q : AnyRequest) (msg : string) :
    trace o = [EvRemote q false; EvToastError msg] → final o = st →
    MutationOutcome srv st o
| Answered (q : AnyRequest) (notices : list Event) :
    trace o = EvRemote q true :: notices →
    Forall (λ e, isRemote e = false) notices →
    loading (final o) = loading st →
    initialLoadComplete (final o) = initialLoadComplete st →
    MutationOutcome srv st o.

End UseHabitsDb.

(** ** The record store (schema migration)

    The five tables with the constraints the migration declares: a primary
    key [id] on every table, [UNIQUE(habit_id, date)] and the cascading
    foreign key on [habit_completions], [UNIQUE(user_id, date)] and
    [CHECK (hours >= 0 AND hours <= 24)] on [sleep_entries], and the row
    policies [auth.uid() = user_id].  A request fails when the environment
    says so (network, session) or when a constraint rejects it.  Identifiers
    ([gen_random_uuid()]) and timestamps ([now()]) come from the
    environment.  Dates are taken to be in ISO form already and hours are kept
    as sent: the coercions to [DATE] and [NUMERIC(3,1)] are not modelled. *)
Module Store.
Import UseHabitsDb.

Record Tables := mkTables {
  habits : list HabitsRow.t;
  habit_completions : list HabitCompletionsRow.t;
  sleep_entries : list SleepEntriesRow.t;
  tasks : list TasksRow.t;
  notes : list NotesRow.t;
}.

Definition emptyTables : Tables := mkTables [] [] [] [] [].

(** What the environment decides for one request. *)
Record Env := mkEnv {
  unavailable : bool;
  gen_random_uuid : string;
  now : Date;
}.

Record World := mkWorld {
  tables : Tables;
  oracle : nat → Env;
  clock : nat;
}.

(** [.order('created_at', { ascending })] *)
Definition notAfter {A} (created_at : A → Date) (a b : A) : Prop :=
  created_at a ≤ created_at b.
Global Instance notAfter_dec {A} (created_at : A → Date) :
  RelDecision (notAfter created_at) :=
  λ a b, decide (created_at a ≤ created_at b).

Definition orderAscending {A} (created_at : A → Date) : list A → list A :=
  merge_sort (notAfter created_at).
Definition orderDescending {A} (created_at : A → Date) : list A → list A :=
  merge_sort (flip (notAfter created_at)).

(** [CHECK (hours >= 0 AND hours <= 24)] *)
Definition hoursCheck (hours : Qc) : Prop := (0 ≤ hours ∧ hours ≤ Qc_of_Z 24)%Qc.

Definition answer (e : Env) (R : Type) (q : Request R) (t : Tables)
  : Result R * Tables :=
  match q in Request R return Result R * Tables with
  | SelectHabits uid =>
      (Data (orderAscending HabitsRow.created_at
               (filter (λ r, HabitsRow.user_id r = uid) (habits t))), t)
  | SelectCompletions uid =>
      (Data (filter (λ r, HabitCompletionsRow.user_id r = uid)
               (habit_completions t)), t)
  | SelectSleep uid =>
      (Data (filter (λ r, SleepEntriesRow.user_id r = uid)
               (sleep_entries t)), t)
  | SelectTasks uid =>
      (Data (orderAscending TasksRow.created_at
               (filter (λ r, TasksRow.user_id r = uid) (tasks t))), t)
  | SelectNotes uid =>
      (Data (orderDescending NotesRow.created_at
               (filter (λ r, NotesRow.user_id r = uid) (notes t))), t)
  | InsertHabit name color uid =>
      let row := HabitsRow.mk (gen_random_uuid e) uid name color (now e) in
      if decide (HabitsRow.id row ∈ HabitsRow.id <$> habits t)
      then (Error "duplicate key value violates unique constraint", t)
      else (Data row,
            mkTables (habits t ++ [row]) (habit_completions t)
              (sleep_entries t) (tasks t) (notes t))
  | UpdateHabit id uid name color =>
      (Data (),
       mkTables
         ((λ r, if decide (HabitsRow.id r = id ∧ HabitsRow.user_id r = uid)
                then HabitsRow.mk (HabitsRow.id r) (HabitsRow.user_id r)
                       (default (HabitsRow.name r) name)
                       (default (HabitsRow.color r) color)
                       (HabitsRow.created_at r)
                else r) <$> habits t)
         (habit_completions t) (sleep_entries t) (tasks t) (notes t))
  | DeleteHabit id uid =>
      let deleted :=
        filter (λ r, HabitsRow.id r = id ∧ HabitsRow.user_id r = uid)
          (habits t) in
      (Data (),
       mkTables
         (filter (λ r, ¬ (HabitsRow.id r = id ∧ HabitsRow.user_id r = uid))
            (habits t))
         (filter (λ c, HabitCompletionsRow.habit_id c
                         ∉ HabitsRow.id <$> deleted)
            (habit_completions t))
         (sleep_entries t) (tasks t) (notes t))
  | DeleteCompletion habit_id date uid =>
      (Data (),
       mkTables (habits t)
         (filter (λ c, ¬ (HabitCompletionsRow.habit_id c = habit_id
                          ∧ HabitCompletionsRow.date c = date
                          ∧ HabitCompletionsRow.user_id c = uid))
            (habit_completions t))
         (sleep_entries t) (tasks t) (notes t))
  | InsertCompletion habit_id date uid =>
      let row :=
        HabitCompletionsRow.mk (gen_random_uuid e) habit_id uid date (now e) in
      if decide (HabitCompletionsRow.id row
                   ∈ HabitCompletionsRow.id <$> habit_completions t)
      then (Error "duplicate key value violates unique constraint", t)
      else if decide (habit_id ∉ HabitsRow.id <$> habits t)
      then (Error "violates foreign key constraint", t)
      else if decide (Exists (λ c, HabitCompletionsRow.habit_id c = habit_id
                                   ∧ HabitCompletionsRow.date c = date)
                        (habit_completions t))
      then (Error "duplicate key value violates unique constraint", t)
      else (Data (),
            mkTables (habits t) (habit_completions t ++ [row])
              (sleep_entries t) (tasks t) (notes t))
  | UpsertSleep date hours uid =>
      if decide (hoursCheck hours) then
        match list_find (λ r, SleepEntriesRow.user_id r = uid
                              ∧ SleepEntriesRow.date r = date)
                (sleep_entries t) with
        | Some (i, old) =>
            (Data (),
             mkTables (habits t) (habit_completions t)
               (<[i := SleepEntriesRow.mk (SleepEntriesRow.id old) uid date
                         hours (SleepEntriesRow.created_at old)]>
                  (sleep_entries t))
               (tasks t) (notes t))
        | None =>
            let row :=
              SleepEntriesRow.mk (gen_random_uuid e) uid date hours (now e) in
            if decide (SleepEntriesRow.id row
                         ∈ SleepEntriesRow.id <$> sleep_entries t)
            then (Error "duplicate key value violates unique constraint", t)
            else (Data (),
                  mkTables (habits t) (habit_completions t)
                    (sleep_entries t ++ [row]) (tasks t) (notes t))
        end
      else (Error "violates check constraint", t)
  | InsertTask title date color uid =>
      let row :=
        TasksRow.mk (gen_random_uuid e) uid title date false color (now e) in
      if decide (TasksRow.id row ∈ TasksRow.id <$> tasks t)
      then (Error "duplicate key value violates unique constraint", t)
      else (Data row,
            mkTables (habits t) (habit_completions t) (sleep_entries t)
              (tasks t ++ [row]) (notes t))
  | UpdateTask id uid updates =>
      (Data (),
       mkTables (habits t) (habit_completions t) (sleep_entries t)
         ((λ r, if decide (TasksRow.id r = id ∧ TasksRow.user_id r = uid)
                then TasksRow.mk (TasksRow.id r) (TasksRow.user_id r)
                       (default (TasksRow.title r) (TaskUpdates.title updates))
                       (default (TasksRow.date r) (TaskUpdates.date updates))
                       (default (TasksRow.completed r)
                          (TaskUpdates.completed updates))
                       (match TaskUpdates.color updates with
                        | Some c => Some c
                        | None => TasksRow.color r
                        end)
                       (TasksRow.created_at r)
                else r) <$> tasks t)
         (notes t))
  | DeleteTask id uid =>
      (Data (),
       mkTables (habits t) (habit_completions t) (sleep_entries t)
         (filter (λ r, ¬ (TasksRow.id r = id ∧ TasksRow.user_id r = uid))
            (tasks t))
         (notes t))
  | InsertNote content date uid =>
      let row := NotesRow.mk (gen_random_uuid e) uid content date (now e) in
      if decide (NotesRow.id row ∈ NotesRow.id <$> notes t)
      then (Error "duplicate key value violates unique constraint", t)
      else (Data row,
            mkTables (habits t) (habit_completions t) (sleep_entries t)
              (tasks t) (notes t ++ [row]))
  | UpdateNote id uid content =>
      (Data (),
       mkTables (habits t) (habit_completions t) (sleep_entries t) (tasks t)
         ((λ r, if decide (NotesRow.id r = id ∧ NotesRow.user_id r = uid)
                then NotesRow.mk (NotesRow.id r) (NotesRow.user_id r) content
                       (NotesRow.date r) (NotesRow.created_at r)
                else r) <$> notes t))
  | DeleteNote id uid =>
      (Data (),
       mkTables (habits t) (habit_completions t) (sleep_entries t) (tasks t)
         (filter (λ r, ¬ (NotesRow.id r = id ∧ NotesRow.user_id r = uid))
            (notes t)))
  end.

Definition serve (R : Type) (q : Request R) (w : World) : Result R * World :=
  let e := oracle w (clock w) in
  if unavailable e
  then (Error "request failed", mkWorld (tables w) (oracle w) (S (clock w)))
  else
    let '(r, t) := answer e R q (tables w) in
    (r, mkWorld t (oracle w) (S (clock w))).


(** The key constraints, as properties of the tables. *)
Definition habitsKey (t : Tables) : Prop :=
  NoDup (HabitsRow.id <$> habits t).
Definition completionsUnique (t : Tables) : Prop :=
  NoDup ((λ c, (HabitCompletionsRow.habit_id c, HabitCompletionsRow.date c))
           <$> habit_completions t).
Definition constraints (t : Tables) : Prop :=
  habitsKey t ∧ completionsUnique t.

End Store.


(** ** The hook in use

    A component calls the callbacks one after the other, each after the
    render that followed the previous one, so the [habits] a callback reads
    are the current ones.  A change of the signed-in user re-runs
    [fetchData] (the [useEffect] on it).  One client talks to the store. *)
Module Client.
Import UseHabitsDb.

Inductive Call : Type :=
| CallFetchData
| CallAddHabit (name color : string)
| CallUpdateHabit (id : string) (updates : HabitUpdates.t)
| CallDeleteHabit (id : string)
| CallToggleHabitDay (habitId date : string)
| CallAddSleepEntry (date : string) (hours : Qc)
| CallAddTask (title date : string) (color : option string)
| CallUpdateTask (id : string) (updates : TaskUpdates.t)
| CallDeleteTask (id : string)
| CallAddNote (content date : string)
| CallUpdateNote (id content : string)
| CallDeleteNote (id : string).

Definition program (user : option string) (st : Hook) (c : Call) : Prog :=
  match c with
  | CallFetchData => fetchData user
  | CallAddHabit name color => addHabit user name color
  | CallUpdateHabit id updates => updateHabit user id updates
  | CallDeleteHabit id => deleteHabit user id
  | CallToggleHabitDay habitId date =>
      toggleHabitDay user (habits (data st)) habitId date
  | CallAddSleepEntry date hours => addSleepEntry user date hours
  | CallAddTask title date color => addTask user title date color
  | CallUpdateTask id updates => updateTask user id updates
  | CallDeleteTask id => deleteTask user id
  | CallAddNote content date => addNote user content date
  | CallUpdateNote id content => updateNote user id content
  | CallDeleteNote id => deleteNote user id
  end.


(** The callbacks other than [fetchData]. *)
Definition isMutation (c : Call) : bool :=
  match c with CallFetchData => false | _ => true end.






(** The invariant of the client: the key constraints hold in the store, the
    local habits have pairwise distinct identifiers, each of them is the
    identifier of a row of [habits], and no completion list holds a date
    twice. *)
Definition distinctIds (hs : list Habit.t) : Prop :=
  NoDup (Habit.id <$> hs).
Definition knownIds (t : Store.Tables) (hs : list Habit.t) : Prop :=
  ∀ h, h ∈ hs → Habit.id h ∈ HabitsRow.id <$> Store.habits t.
Definition noDuplicateDays (hs : list Habit.t) : Prop :=
  Forall (λ h, NoDup (Habit.completedDays h)) hs.

Definition consistent (t : Store.Tables) (st : Hook) : Prop :=
  Store.constraints t
  ∧ distinctIds (habits (data st))
  ∧ knownIds t (habits (data st))
  ∧ noDuplicateDays (habits (data st)).


End Client.

(** ** A formatter for the examples

    [format(date, 'yyyy-MM-dd')] of date-fns on the proleptic Gregorian
    calendar, for the day numbered [days] from 1970-01-01.  It instantiates
    the [format] parameter of [calculateStreak] in the examples. *)
Module DateFns.

Definition pad (width : nat) (n : Z) : string :=
  let s := pretty (Z.to_N n) in
  String.concat EmptyString (replicate (width - String.length s) "0") +:+ s.

Definition civil (days : Z) : Z * Z * Z :=
  let z := days + 719468 in
  let era := z / 146097 in
  let doe := z - era * 146097 in
  let yoe := (doe - doe / 1460 + doe / 36524 - doe / 146096) / 365 in
  let y := yoe + era * 400 in
  let doy := doe - (365 * yoe + yoe / 4 - yoe / 100) in
  let mp := (5 * doy + 2) / 153 in
  let d := doy - (153 * mp + 2) / 5 + 1 in
  let m := if decide (mp < 10) then mp + 3 else mp - 9 in
  (if decide (m ≤ 2) then y + 1 else y, m, d).

Definition yyyy_MM_dd (days : Z) : string :=
  let '(y, m, d) := civil days in
  pad 4 y +:+ "-" +:+ pad 2 m +:+ "-" +:+ pad 2 d.

End DateFns.

(** ** Sample data for the examples *)
Module Sample.
Import UseHabitsDb.

(** A store that is reachable, numbers its identifiers by the requests it
    has seen and stamps rows with that number. *)
Definition quiet (n : nat) : Store.Env :=
  Store.mkEnv false ("id" +:+ pretty n) (Z.of_nat n).


(** A store that refuses every request. *)
Definition offline : Store.World :=
  Store.mkWorld Store.emptyTables (λ _, Store.mkEnv true EmptyString 0) 0.

Definition user : string := "u1".
Definition today : string := "2026-11-02".
Definition yesterday : string := "2026-11-01".

Definition read : Habit.t := Habit.mk "a" "Read" "#f00" 1 [yesterday].
Definition jog : Habit.t := Habit.mk "b" "Run" "#0f0" 2 [yesterday; today].

(** A store holding the two habits and their completions, and the hook
    after loading them. *)
Definition world : Store.World :=
  Store.mkWorld
    (Store.mkTables
       [HabitsRow.mk "a" user "Read" "#f00" 1;
        HabitsRow.mk "b" user "Run" "#0f0" 2]
       [HabitCompletionsRow.mk "c1" "a" user yesterday 3;
        HabitCompletionsRow.mk "c2" "b" user yesterday 4;
        HabitCompletionsRow.mk "c3" "b" user today 5]
       [SleepEntriesRow.mk "s1" user yesterday (Qc_of_Z 7) 6] [] [])
    (λ n, quiet (10 + n)) 0.

Definition loaded : Hook :=
  mkHook
    (mkCollections [read; jog] [SleepEntry.mk yesterday (Qc_of_Z 7)] []
       [Note.mk "n1" "first" yesterday 7])
    false true.


End Sample.

(** ** The components that read the cells

    The handlers of a component are transitions of its own [useState] cells
    that may call one callback of the hook; [trim] is
    [String.prototype.trim] and [format] date-fns' [format] for the
    ['yyyy-MM-dd'] pattern, on numbered calendar days. *)

(** *** The sleep grid ([SleepTracker]) *)
Module SleepTracker.

Definition SLEEP_HOURS : list Qc := Qc_of_Z <$> [9; 8; 7; 6; 5].

(** [sleepEntries.find((e) => e.date === date)?.hours] *)
Definition getSleepForDate (sleepEntries : list SleepEntry.t) (date : string)
  : option Qc :=
  (λ found, SleepEntry.hours (snd found))
    <$> list_find (λ e, SleepEntry.date e = date) sleepEntries.

(** [sleepHours === hours], for the cell of the row [hours] on the day
    [dateStr]. *)
Definition isSelected (sleepEntries : list SleepEntry.t) (dateStr : string)
    (hours : Qc) : bool :=
  bool_decide (getSleepForDate sleepEntries dateStr = Some hours).

End SleepTracker.

(** *** The habit grid ([HabitGrid]) *)
Module HabitGrid.

Definition HABIT_COLORS : list string :=
  ["hsl(12 76% 61%)"; "hsl(167 64% 45%)"; "hsl(45 93% 58%)";
   "hsl(262 52% 55%)"; "hsl(199 89% 48%)"; "hsl(142 71% 45%)";
   "hsl(330 70% 55%)"].

Record State := mkState {
  newHabitName : string;
  newHabitColor : string;
  isAddDialogOpen : bool;
  editingHabit : option Habit.t;
  editName : string;
  editColor : string;
}.

(** What a handler asks of the hook. *)
Inductive Callback : Type :=
| onAddHabit (name color : string)
| onUpdateHabit (id : string) (updates : HabitUpdates.t).

Section Handlers.
Variable trim : string → string.

Definition handleAddHabit (s : State) : State * option Callback :=
  if decide (trim (newHabitName s) ≠ EmptyString) then
    (mkState EmptyString (default EmptyString (head HABIT_COLORS)) false
       (editingHabit s) (editName s) (editColor s),
     Some (onAddHabit (trim (newHabitName s)) (newHabitColor s)))
  else (s, None).

Definition handleEditHabit (s : State) : State * option Callback :=
  match editingHabit s with
  | Some habit =>
      if decide (trim (editName s) ≠ EmptyString) then
        (mkState (newHabitName s) (newHabitColor s) (isAddDialogOpen s) None
           (editName s) (editColor s),
         Some (onUpdateHabit (Habit.id habit)
                 (HabitUpdates.mk (Some (trim (editName s)))
                    (Some (editColor s)) None)))
      else (s, None)
  | None => (s, None)
  end.

Definition startEditing (habit : Habit.t) (s : State) : State :=
  mkState (newHabitName s) (newHabitColor s) (isAddDialogOpen s) (Some habit)
    (Habit.name habit) (Habit.color habit).
End Handlers.

(** The transition of the localStorage hook a callback stands for;
    [addHabit] draws [uuid] and [now]. *)
Definition perform (uuid : string) (now : Date) (cb : option Callback)
  : Collections → Collections :=
  match cb with
  | Some (onAddHabit name color) => UseHabits.addHabit uuid now name color
  | Some (onUpdateHabit id updates) => UseHabits.updateHabit id updates
  | None => λ c, c
  end.

End HabitGrid.

(** *** The calendar ([CalendarView]) *)
Module CalendarView.

Definition TASK_COLORS : list string :=
  ["hsl(12 76% 61%)"; "hsl(167 64% 45%)"; "hsl(45 93% 58%)";
   "hsl(262 52% 55%)"; "hsl(199 89% 48%)"].

Record State := mkState {
  selectedDate : option Z;
  newTaskTitle : string;
  newTaskColor : string;
}.

Section Handlers.
Variable trim : string → string.
Variable format : Z → string.

Definition getTasksForDate (tasks : list CalendarTask.t) (date : Z)
  : list CalendarTask.t :=
  let dateStr := format date in
  filter (λ task, CalendarTask.date task = dateStr) tasks.

(** The arguments of [onAddTask], when the handler calls it. *)
Definition handleAddTask (s : State)
  : State * option (string * string * option string) :=
  match selectedDate s with
  | Some date =>
      if decide (trim (newTaskTitle s) ≠ EmptyString) then
        (mkState (selectedDate s) EmptyString
           (default EmptyString (head TASK_COLORS)),
         Some (trim (newTaskTitle s), format date, Some (newTaskColor s)))
      else (s, None)
  | None => (s, None)
  end.

Definition selectedDateTasks (tasks : list CalendarTask.t) (s : State)
  : list CalendarTask.t :=
  match selectedDate s with
  | Some date => getTasksForDate tasks date
  | None => []
  end.
End Handlers.

(** The dots of a day cell, [dayTasks.slice(0, 3)], and the count shown
    beside them when [dayTasks.length > 3]. *)
Definition dots (dayTasks : list CalendarTask.t) : list CalendarTask.t :=
  take 3 dayTasks.
Definition more (dayTasks : list CalendarTask.t) : option nat :=
  if decide (3 < length dayTasks)%nat then Some (length dayTasks - 3)%nat
  else None.

(** The check box of a task: [{ completed: !task.completed }]. *)
Definition toggleCompleted (task : CalendarTask.t) : TaskUpdates.t :=
  TaskUpdates.mk None None (Some (negb (CalendarTask.completed task))) None.

End CalendarView.

(** *** The analytics page ([Analytics])

    [today] is the day [new Date()] falls on, [subDays(new Date(), i)] the
    day [today - i].  Quotients are exact rationals, as for
    [completionRate]. *)
Module Analytics.

Record WeeklyEntry := mkWeeklyEntry {
  day : string;
  date : string;
  completed : Z;
  total : Z;
  percentage : Z;
}.

Record HabitStat := mkHabitStat {
  name : string;
  color : string;
  totalDays : Z;
  last30Count : Z;
  completionRate : Z;
}.

Section WithFormat.
(** [format pattern n] is [format(date, pattern)] for the day numbered [n]. *)
Variable format : string → Z → string.

Definition completedOn (habits : list Habit.t) (dateStr : string) : Z :=
  Z.of_nat (length
    (filter (λ h, includes (Habit.completedDays h) dateStr = true) habits)).

Definition percentageOf (completed total : Z) : Z :=
  if decide (total > 0)
  then Dashboard.Math_round
         ((inject_Z completed / inject_Z total) * inject_Z 100)%Q
  else 0.

Definition weeklyData (habits : list Habit.t) (today : Z)
  : list WeeklyEntry :=
  (λ i, let date := today - (6 - i) in
        let dateStr := format "yyyy-MM-dd" date in
        let completed := completedOn habits dateStr in
        mkWeeklyEntry (format "EEE" date) (format "MMM d" date) completed
          (Z.of_nat (length habits))
          (percentageOf completed (Z.of_nat (length habits))))
    <$> seqZ 0 7.

Definition last30Days (today : Z) : list string :=
  (λ i, format "yyyy-MM-dd" (today - i)) <$> seqZ 0 30.

Definition habitStats (habits : list Habit.t) (today : Z) : list HabitStat :=
  (λ habit,
     let totalDays := Z.of_nat (length (Habit.completedDays habit)) in
     let last30Days := last30Days today in
     let last30Count :=
       Z.of_nat (length (filter (λ d, includes last30Days d = true)
                           (Habit.completedDays habit))) in
     let completionRate :=
       Dashboard.Math_round
         ((inject_Z last30Count / inject_Z 30) * inject_Z 100)%Q in
     mkHabitStat (Habit.name habit) (Habit.color habit) totalDays last30Count
       completionRate) <$> habits.

(** [entry?.hours || 0]: no entry and an entry of 0 hours both give 0. *)
Definition sleepData (sleepEntries : list SleepEntry.t) (today : Z)
  : list (string * Qc) :=
  (λ i, let date := today - (6 - i) in
        let dateStr := format "yyyy-MM-dd" date in
        let entry :=
          snd <$> list_find (λ e, SleepEntry.date e = dateStr) sleepEntries in
        (format "EEE" date,
         match entry with
         | Some e => if decide (SleepEntry.hours e = Qc_of_Z 0)
                     then Qc_of_Z 0 else SleepEntry.hours e
         | None => Qc_of_Z 0
         end)) <$> seqZ 0 7.
End WithFormat.

Definition pieData (stats : list HabitStat) : list (string * Z * string) :=
  (λ stat, (name stat, totalDays stat, color stat)) <$> stats.

Definition totalCompletions (habits : list Habit.t) : Z :=
  foldl (λ sum h, sum + Z.of_nat (length (Habit.completedDays h))) 0 habits.

Definition avgCompletionRate (stats : list HabitStat) : Z :=
  if decide (0 < length stats)%nat
  then
    let sum := foldl (λ sum h, sum + completionRate h) 0 stats in
    Dashboard.Math_round (inject_Z sum / inject_Z (Z.of_nat (length stats)))%Q
  else 0.

(** [habitStats.reduce((best, h) => ...)] without an initial value starts
    from the first element. *)
Definition bestHabit (stats : list HabitStat) : option HabitStat :=
  match stats with
  | [] => None
  | first :: rest =>
      Some (foldl (λ best h,
                     if decide (completionRate h > completionRate best)
                     then h else best) first rest)
  end.

(** [x.toFixed(1)]: the sign, then the integer [n] nearest to [10 * x] (the
    larger of two), written with one digit after the point. *)
Definition toFixed1 (x : Qc) : string :=
  let sign := if decide (x < Qc_of_Z 0)%Qc then "-" else EmptyString in
  let x := if decide (x < Qc_of_Z 0)%Qc then (- x)%Qc else x in
  let n := Qfloor (this x * inject_Z 10 + (1 # 2))%Q in
  sign +:+ pretty (n / 10) +:+ "." +:+ pretty (n `mod` 10).

Definition avgSleep (sleepEntries : list SleepEntry.t) : string :=
  if decide (0 < length sleepEntries)%nat
  then toFixed1
         (foldl (λ sum e, sum + SleepEntry.hours e)%Qc (Qc_of_Z 0)
            sleepEntries
          / Qc_of_Z (Z.of_nat (length sleepEntries)))%Qc
  else "—".

End Analytics.

(** ** The declared constraints of the schema, all of them *)
Module Schema.






End Schema.

(** ** The local habits as a mirror of the owner's rows *)
Module Mirror.
Import UseHabitsDb Client.

(** Every local habit is a row of [owner], and its completion dates are the
    dates of the owner's completion rows for it. *)
Definition owned (t : Store.Tables) (owner : string) (hs : list Habit.t)
  : Prop :=
  ∀ h, h ∈ hs →
    ∃ row, row ∈ Store.habits t ∧ HabitsRow.id row = Habit.id h
           ∧ HabitsRow.user_id row = owner.

Definition completions (t : Store.Tables) (owner : string)
    (hs : list Habit.t) : Prop :=
  ∀ h, h ∈ hs → ∀ d,
    d ∈ Habit.completedDays h
    ↔ ∃ c, c ∈ Store.habit_completions t
           ∧ HabitCompletionsRow.habit_id c = Habit.id h
           ∧ HabitCompletionsRow.date c = d
           ∧ HabitCompletionsRow.user_id c = owner.

Definition mirrors (t : Store.Tables) (user : option string) (st : Hook)
  : Prop :=
  match user with
  | Some owner =>
      owned t owner (habits (data st))
      ∧ completions t owner (habits (data st))
  | None => True
  end.



End Mirror.
(** * Properties *)

(** ** Dashboard metrics *)
Section DashboardFacts.
Import Dashboard.

Lemma Math_round_ratio (c t : Z) :
  t > 0 →
  Math_round ((inject_Z c / inject_Z t) * inject_Z 100)%Q
  = (200 * c + t) / (2 * t).
Proof.
  intros Ht. destruct t as [|p|p]; try lia.
  unfold Math_round, Qfloor, Qdiv, Qinv, Qmult, Qplus, inject_Z. simpl.
  rewrite Pos.mul_1_l, Pos.mul_1_r, Pos2Z.inj_mul. f_equal; lia.
Qed.

Lemma completionRate_pos habits today :
  totalHabits habits > 0 →
  completionRate habits today
  = (200 * completedToday habits today + totalHabits habits)
      / (2 * totalHabits habits).
Proof.
  intros Ht. unfold completionRate.
  destruct (decide (totalHabits habits > 0)); [|done].
  by apply Math_round_ratio.
Qed.

Lemma completedToday_count habits today :
  completedToday habits today
  = Z.of_nat (length (filter (λ h, today ∈ Habit.completedDays h) habits)).
Proof.
  unfold completedToday. do 2 f_equal. apply list_filter_iff.
  intros h. unfold includes. by rewrite bool_decide_eq_true.
Qed.

(** C6: the completion rate is 0 when there are no habits; otherwise it is
    the integer nearest to 100 * completedToday / totalHabits (a tie rounded
    upwards), where completedToday counts the habits whose completion list
    contains today's date; with 3 habits of which 2 are completed today it
    is 67. *)
Theorem completionRate_spec (habits : list Habit.t) (today : string) :
  let total := Z.of_nat (length habits) in
  let completed :=
    Z.of_nat (length (filter (λ h, today ∈ Habit.completedDays h) habits)) in
  let rate := completionRate habits today in
  (total = 0 → rate = 0)
  ∧ (total > 0 → 2 * Z.abs (100 * completed - rate * total) ≤ total)
  ∧ (total = 3 → completed = 2 → rate = 67).
Proof.
  intros total completed rate.
  assert (Hc : completed = completedToday habits today)
    by (symmetry; apply completedToday_count).
  assert (Hpos : total > 0 →
            rate = (200 * completed + total) / (2 * total)).
  { intros Ht. unfold rate. rewrite Hc. by apply completionRate_pos. }
  split; [|split].
  - intros H0. unfold rate, completionRate.
    destruct (decide (totalHabits habits > 0)) as [Hgt|]; [|done].
    unfold totalHabits in Hgt. fold total in Hgt. lia.
  - intros Ht. rewrite (Hpos Ht).
    pose proof (Z.div_mod (200 * completed + total) (2 * total)) as Hdm.
    pose proof (Z.mod_pos_bound (200 * completed + total) (2 * total)) as Hb.
    nia.
  - intros H3 H2. rewrite (Hpos ltac:(lia)), H3, H2. reflexivity.
Qed.

Lemma completionRate_spec_witness :
  completionRate
    [Habit.mk "h1" "Read" "#f00" 0 ["2026-11-01"; "2026-11-02"];
     Habit.mk "h2" "Run" "#0f0" 0 ["2026-11-02"];
     Habit.mk "h3" "Walk" "#00f" 0 ["2026-10-31"]] "2026-11-02" = 67.
Proof.
  apply completionRate_spec; reflexivity.
Defined.

Lemma anyCompleted_true habits dateStr :
  anyCompleted habits dateStr = true
  ↔ ∃ h, h ∈ habits ∧ dateStr ∈ Habit.completedDays h.
Proof.
  unfold anyCompleted. rewrite bool_decide_eq_true, Exists_exists.
  unfold includes. by setoid_rewrite bool_decide_eq_true.
Qed.

Lemma anyCompleted_false habits dateStr :
  anyCompleted habits dateStr = false
  ↔ ∀ h, h ∈ habits → dateStr ∉ Habit.completedDays h.
Proof.
  rewrite <-not_true_iff_false, anyCompleted_true.
  split; [intros Hn h Hh Hd; apply Hn; eauto|intros Hn (h & Hh & Hd); by eapply Hn].
Qed.

Section StreakFacts.
Variable format : Z → string.

(** Running through [n] completed days. *)
Lemma streakLoop_run habits (n : nat) : ∀ fuel date streak,
  (∀ i : nat, (i < n)%nat →
     anyCompleted habits (format (date - Z.of_nat i)) = true) →
  streakLoop format (n + fuel) habits date streak
  = streakLoop format fuel habits (date - Z.of_nat n) (streak + n)%nat.
Proof.
  induction n as [|n IH]; intros fuel date streak Hdays.
  - simpl. by rewrite Z.sub_0_r, Nat.add_0_r.
  - simpl streakLoop at 1.
    pose proof (Hdays 0%nat ltac:(lia)) as H0. simpl in H0.
    rewrite Z.sub_0_r in H0. rewrite H0. simpl negb. cbv iota.
    rewrite IH.
    + f_equal; lia.
    + intros i Hi. specialize (Hdays (S i) ltac:(lia)).
      rewrite <-Hdays. do 2 f_equal. lia.
Qed.

Lemma streakLoop_stop habits (n : nat) fuel date :
  (∀ i : nat, (i < n)%nat →
     anyCompleted habits (format (date - Z.of_nat i)) = true) →
  anyCompleted habits (format (date - Z.of_nat n)) = false →
  (n < fuel)%nat →
  streakLoop format fuel habits date 0 = Some n.
Proof.
  intros Hdays Hgap Hfuel.
  replace fuel with (n + S (fuel - S n))%nat by lia.
  rewrite streakLoop_run by done. simpl. by rewrite Hgap.
Qed.

Lemma calculateStreak_stop habits (n : nat) fuel today :
  (∀ i : nat, (i < n)%nat →
     anyCompleted habits (format (today - Z.of_nat i)) = true) →
  anyCompleted habits (format (today - Z.of_nat n)) = false →
  (n < fuel)%nat →
  calculateStreak format fuel habits today = Some n.
Proof.
  intros Hdays Hgap Hfuel. unfold calculateStreak.
  destruct (decide (length habits = 0%nat)) as [Hlen|].
  - destruct n as [|n]; [done|].
    specialize (Hdays 0%nat ltac:(lia)).
    apply anyCompleted_true in Hdays as (h & Hh & _).
    destruct habits; [by apply elem_of_nil in Hh | done].
  - by apply streakLoop_stop.
Qed.

(** C3: the streak is the number [n] of consecutive days ending at today on
    which some habit's completion list contains that day's date, the day
    before those having no completion; in particular it is 0 when no habit
    was completed today, whatever the earlier days hold (one turn of the
    loop decides it), and 3 when there are completions today and on the two
    days before but not on the day before those. *)
Theorem calculateStreak_spec (habits : list Habit.t) (today : Z) :
  (∀ (n fuel : nat),
     (∀ i : nat, (i < n)%nat →
        ∃ h, h ∈ habits
             ∧ format (today - Z.of_nat i) ∈ Habit.completedDays h) →
     (∀ h, h ∈ habits →
        format (today - Z.of_nat n) ∉ Habit.completedDays h) →
     (n < fuel)%nat →
     calculateStreak format fuel habits today = Some n)
  ∧ ((∀ h, h ∈ habits → format today ∉ Habit.completedDays h) →
     ∀ fuel, (1 ≤ fuel)%nat →
       calculateStreak format fuel habits today = Some 0%nat)
  ∧ ((∃ h, h ∈ habits ∧ format today ∈ Habit.completedDays h) →
     (∃ h, h ∈ habits ∧ format (today - 1) ∈ Habit.completedDays h) →
     (∃ h, h ∈ habits ∧ format (today - 2) ∈ Habit.completedDays h) →
     (∀ h, h ∈ habits → format (today - 3) ∉ Habit.completedDays h) →
     ∀ fuel, (4 ≤ fuel)%nat →
       calculateStreak format fuel habits today = Some 3%nat).
Proof.
  assert (Hgen : ∀ (n fuel : nat),
     (∀ i : nat, (i < n)%nat →
        ∃ h, h ∈ habits
             ∧ format (today - Z.of_nat i) ∈ Habit.completedDays h) →
     (∀ h, h ∈ habits →
        format (today - Z.of_nat n) ∉ Habit.completedDays h) →
     (n < fuel)%nat →
     calculateStreak format fuel habits today = Some n).
  { intros n fuel Hdays Hgap Hfuel. apply calculateStreak_stop; [| |done].
    - intros i Hi. apply anyCompleted_true. by apply Hdays.
    - by apply anyCompleted_false. }
  split; [exact Hgen|split].
  - intros Hgap fuel Hfuel. apply (Hgen 0%nat); [lia| |lia].
    simpl. by rewrite Z.sub_0_r.
  - intros H0 H1 H2 Hgap fuel Hfuel. apply (Hgen 3%nat); [| |lia].
    + intros i Hi. destruct i as [|[|[|i]]]; [| | |lia].
      * by rewrite Z.sub_0_r.
      * exact H1.
      * exact H2.
    + exact Hgap.
Qed.

(** The loop ends: when [format] gives different days different strings, the
    streak is at most the number of recorded completions. *)
Lemma anyCompleted_allCompletions habits dateStr :
  anyCompleted habits dateStr = true ↔ dateStr ∈ allCompletions habits.
Proof.
  rewrite anyCompleted_true. unfold allCompletions.
  rewrite list_elem_of_bind.
  split; intros (h & H1 & H2); eauto.
Qed.

Lemma streak_bounded habits today (n : nat) :
  Inj (=) (=) format →
  (∀ i : nat, (i < n)%nat →
     anyCompleted habits (format (today - Z.of_nat i)) = true) →
  (n ≤ length (allCompletions habits))%nat.
Proof.
  intros Hinj Hdays.
  set (days := (λ i : nat, format (today - Z.of_nat i)) <$> seq 0 n).
  assert (Hnd : NoDup days).
  { apply NoDup_fmap_2_strong; [|apply NoDup_seq].
    intros i j _ _ Hij. apply Hinj in Hij. lia. }
  assert (Hsub : days ⊆ allCompletions habits).
  { intros s Hs. apply list_elem_of_fmap in Hs as (i & -> & Hi).
    apply elem_of_seq in Hi. apply anyCompleted_allCompletions, Hdays. lia. }
  pose proof (submseteq_length _ _ (NoDup_submseteq _ _ Hnd
    (λ x Hx, Hsub x Hx))) as Hlen.
  unfold days in Hlen. by rewrite length_fmap, length_seq in Hlen.
Qed.

Lemma calculateStreak_total habits today :
  Inj (=) (=) format →
  ∃ n : nat, (n ≤ length (allCompletions habits))%nat
    ∧ ∀ fuel, (n < fuel)%nat →
        calculateStreak format fuel habits today = Some n.
Proof.
  intros Hinj.
  assert (Hfirst : ∀ m : nat,
    (∀ i : nat, (i < m)%nat →
       anyCompleted habits (format (today - Z.of_nat i)) = true)
    ∨ ∃ n : nat, (n < m)%nat
        ∧ (∀ i : nat, (i < n)%nat →
             anyCompleted habits (format (today - Z.of_nat i)) = true)
        ∧ anyCompleted habits (format (today - Z.of_nat n)) = false).
  { induction m as [|m [IH|(n & Hn & Hdays & Hgap)]].
    - left. intros i Hi. lia.
    - destruct (anyCompleted habits (format (today - Z.of_nat m))) eqn:Hm.
      + left. intros i Hi. destruct (decide (i = m)) as [->|]; [done|].
        apply IH. lia.
      + right. exists m. split; [lia|done].
    - right. exists n. split; [lia|done]. }
  destruct (Hfirst (S (length (allCompletions habits))))
    as [Hall|(n & Hn & Hdays & Hgap)].
  - pose proof (streak_bounded _ _ _ Hinj Hall). lia.
  - exists n. split.
    + by apply (streak_bounded _ today).
    + intros fuel Hfuel. by apply calculateStreak_stop.
Qed.

End StreakFacts.

Example format_today : DateFns.yyyy_MM_dd 20759 = "2026-11-02".
Proof. reflexivity. Qed.

Lemma calculateStreak_spec_witness :
  calculateStreak DateFns.yyyy_MM_dd 10
    [Habit.mk "h1" "Read" "#f00" 0 ["2026-10-31"; "2026-11-02"; "2026-10-28"];
     Habit.mk "h2" "Run" "#0f0" 0 ["2026-11-01"; "2026-11-02"]] 20759
  = Some 3%nat.
Proof.
  apply calculateStreak_spec.
  - exists (Habit.mk "h1" "Read" "#f00" 0
              ["2026-10-31"; "2026-11-02"; "2026-10-28"]).
    split; compute_done.
  - exists (Habit.mk "h2" "Run" "#0f0" 0 ["2026-11-01"; "2026-11-02"]).
    split; compute_done.
  - exists (Habit.mk "h1" "Read" "#f00" 0
              ["2026-10-31"; "2026-11-02"; "2026-10-28"]).
    split; compute_done.
  - apply Forall_forall. compute_done.
  - lia.
Defined.

End DashboardFacts.

(** ** Running the callbacks of the remote-backed hook *)
Section RunFacts.
Import UseHabitsDb Client.
Context {S : Type}.
Variable serve : ∀ R, Request R → S → Result R * S.

Ltac run_await :=
  simpl;
  match goal with
  | |- context [serve ?R ?q ?srv] =>
      let r := fresh "r" in
      let srv' := fresh "srv'" in
      let Hs := fresh "Hserve" in
      destruct (serve R q srv) as [r srv'] eqn:Hs; destruct r; simpl
  end.

Lemma mutation_outcome srv st u c :
  isMutation c = true →
  MutationOutcome srv st (run serve (program (Some u) st c) srv st).
Proof.
  intros Hc. destruct c; try discriminate Hc; unfold program;
    try (run_await;
         [ eapply Answered; simpl; eauto
         | eapply Refused; simpl; eauto ]).
  (* toggleHabitDay *)
  unfold toggleHabitDay.
  destruct (list_find _ _) as [[i habit]|]; [|by apply NoCall].
  destruct (includes _ _);
    (run_await; [eapply Answered; simpl; eauto | eapply Refused; simpl; eauto]).
Qed.

Lemma mutation_no_user srv st c :
  isMutation c = true →
  run serve (program None st c) srv st = mkOutcome st srv [].
Proof. intros Hc. by destruct c. Qed.



Lemma run_addSleepEntry srv st u date hours :
  let o := run serve (addSleepEntry (Some u) date hours) srv st in
  allSucceeded (trace o) = true →
  data (final o) = UseHabits.addSleepEntry date hours (data st).
Proof. unfold addSleepEntry. run_await; [done|discriminate]. Qed.














Lemma mutation_refused srv st u c :
  isMutation c = true →
  let o := run serve (program (Some u) st c) srv st in
  allSucceeded (trace o) = false → final o = st.
Proof.
  intros Hc o Hfail.
  destruct (mutation_outcome srv st u c Hc)
    as [Htr Hst _|q msg Htr Hst|q notices Htr Hnot _ _]; try done.
  fold o in Htr. rewrite Htr in Hfail. simpl in Hfail.
  exfalso. revert Hfail. apply not_false_iff_true.
  apply forallb_forall. intros e He%list_elem_of_In.
  rewrite Forall_forall in Hnot. specialize (Hnot e He).
  by destruct e.
Qed.

(** C4: a callback other than fetchData called without a signed-in user ends
    at once, with no remote call, no notice and the local state and the
    server as they were; with a user, when its remote call is refused the
    local state is as before, and the local state differs from before only
    after a remote call that was answered (so for toggleHabitDay too);
    fetchData without a user empties the four collections and makes no
    remote call. *)
Theorem failure_paths_keep_state srv st :
  (∀ c, isMutation c = true →
     run serve (program None st c) srv st = mkOutcome st srv [])
  ∧ (∀ c u, isMutation c = true →
       let o := run serve (program (Some u) st c) srv st in
       allSucceeded (trace o) = false → final o = st)
  ∧ (∀ c u, isMutation c = true →
       let o := run serve (program (Some u) st c) srv st in
       final o ≠ st → ∃ q notices, trace o = EvRemote q true :: notices)
  ∧ (let o := run serve (fetchData None) srv st in
     data (final o) = emptyCollections ∧ trace o = [] ∧ server o = srv).
Proof.
  split_and!.
  - intros c Hc. by apply mutation_no_user.
  - intros c u Hc. by apply mutation_refused.
  - intros c u Hc o Hne.
    destruct (mutation_outcome srv st u c Hc)
      as [Htr Hst _|q msg Htr Hst|q notices Htr Hnot _ _]; try done.
    by exists q, notices.
  - done.
Qed.

(** *** Sleep entries *)

Lemma useHabits_addSleepEntry_cons (e : SleepEntry.t) prev hs ts ns d h :
  sleepEntries (UseHabits.addSleepEntry d h (mkCollections hs (e :: prev) ts ns))
  = if decide (SleepEntry.date e = d) then SleepEntry.mk d h :: prev
    else e :: sleepEntries
                (UseHabits.addSleepEntry d h (mkCollections hs prev ts ns)).
Proof.
  simpl. destruct (decide (SleepEntry.date e = d)); [done|].
  by destruct (list_find _ prev) as [[i x]|].
Qed.

Lemma useHabits_addSleepEntry_entries (c : Collections) d h :
  NoDup (SleepEntry.date <$> sleepEntries c) →
  let after := sleepEntries (UseHabits.addSleepEntry d h c) in
  filter (λ e, SleepEntry.date e = d) after = [SleepEntry.mk d h]
  ∧ filter (λ e, SleepEntry.date e ≠ d) after
    = filter (λ e, SleepEntry.date e ≠ d) (sleepEntries c)
  ∧ NoDup (SleepEntry.date <$> after).
Proof.
  destruct c as [hs prev ts ns]. simpl sleepEntries at 1 3.
  induction prev as [|e prev IH]; intros Hnd after.
  - subst after. simpl. rewrite filter_cons_True, filter_cons_False by
      (simpl; first [done | by intros Hne]).
    split_and!; try done. apply NoDup_singleton.
  - subst after. rewrite useHabits_addSleepEntry_cons.
    rewrite fmap_cons in Hnd. apply NoDup_cons in Hnd as [Hnotin Hnd].
    destruct (decide (SleepEntry.date e = d)) as [He|He].
    + assert (Hnone : Forall (λ x, SleepEntry.date x ≠ d) prev).
      { apply Forall_forall. intros x Hx Hxd. apply Hnotin.
        rewrite He, <-Hxd. by apply list_elem_of_fmap_2. }
      rewrite filter_cons_True, (filter_cons_False (λ e, _ ≠ d))
        by (simpl; first [done | by intros Hne]).
      rewrite (filter_cons_False (λ e, _ ≠ d) e)
        by (simpl; intros Hne; by apply Hne).
      split_and!; try done.
      * f_equal. clear -Hnone. induction Hnone as [|x l Hx _ IH]; [done|].
        by rewrite filter_cons_False.
      * rewrite fmap_cons. simpl. apply NoDup_cons. by rewrite <-He.
    + destruct (IH Hnd) as (IH1 & IH2 & IH3).
      rewrite filter_cons_False, !(filter_cons_True (λ e, _ ≠ d)) by done.
      split_and!; [done|by f_equal|].
      rewrite fmap_cons. apply NoDup_cons. split; [|done].
      intros (x & Hx & Hin)%list_elem_of_fmap. apply Hnotin.
      destruct (decide (SleepEntry.date x = d)) as [Hxd|Hxd].
      * assert (x ∈ filter (λ e, SleepEntry.date e = d)
                  (sleepEntries (UseHabits.addSleepEntry d h
                     (mkCollections hs prev ts ns)))) as Hf
          by (by apply list_elem_of_filter).
        congruence.
      * assert (x ∈ filter (λ e, SleepEntry.date e ≠ d) prev) as Hf.
        { rewrite <-IH2. by apply list_elem_of_filter. }
        apply list_elem_of_filter in Hf as [_ Hf].
        rewrite Hx. by apply list_elem_of_fmap_2.
Qed.

(** C5: from a local state with at most one sleep entry per date,
    addSleepEntry(d, h1) then addSleepEntry(d, h2), both remote writes
    answered, leave exactly one entry for date d, with hours h2, and the
    entries of the other dates as they were and in their order; the
    localStorage hook ends with the same entries. *)
Theorem addSleepEntry_twice srv st u d (h1 h2 : Qc) :
  NoDup (SleepEntry.date <$> sleepEntries (data st)) →
  let o1 := run serve (addSleepEntry (Some u) d h1) srv st in
  let o2 := run serve (addSleepEntry (Some u) d h2) (server o1) (final o1) in
  allSucceeded (trace o1) = true →
  allSucceeded (trace o2) = true →
  let after := sleepEntries (data (final o2)) in
  after = sleepEntries (UseHabits.addSleepEntry d h2
                          (UseHabits.addSleepEntry d h1 (data st)))
  ∧ filter (λ e, SleepEntry.date e = d) after = [SleepEntry.mk d h2]
  ∧ filter (λ e, SleepEntry.date e ≠ d) after
    = filter (λ e, SleepEntry.date e ≠ d) (sleepEntries (data st)).
Proof.
  intros Hnd o1 o2 Hok1 Hok2 after.
  pose proof (run_addSleepEntry srv st u d h1 Hok1) as H1. fold o1 in H1.
  pose proof (run_addSleepEntry (server o1) (final o1) u d h2 Hok2) as H2.
  fold o2 in H2. subst after. rewrite H2, H1.
  destruct (useHabits_addSleepEntry_entries (data st) d h1 Hnd)
    as (_ & Hother1 & Hnd1).
  destruct (useHabits_addSleepEntry_entries _ d h2 Hnd1)
    as (Hsame2 & Hother2 & _).
  split_and!; [done|done|].
  by rewrite Hother2, Hother1.
Qed.




(** *** Notes *)


(** *** Updating a habit *)

Lemma spread_habit_frame id updates (a : Habit.t) :
  updateFrame id updates a
    (if decide (Habit.id a = id) then spread_habit a updates else a).
Proof.
  unfold updateFrame. destruct (decide (Habit.id a = id)) as [Heq|Hne].
  - simpl. split_and!; try done. by intros ->.
  - done.
Qed.

Lemma useHabits_updateHabit_frame (c : Collections) id updates :
  Forall2 (updateFrame id updates) (habits c)
    (habits (UseHabits.updateHabit id updates c)).
Proof.
  simpl. apply Forall2_fmap_r, Forall_Forall2_diag, Forall_forall.
  intros a _. apply spread_habit_frame.
Qed.

(** C9 (amended): updateHabit(id, updates) leaves every habit with another
    identifier unchanged and never changes an identifier or a creation time;
    the completion list of a habit is unchanged when updates carries no
    completedDays (the interface accepts one, and the local patch then
    replaces the list); the remote write carries the name and the color
    only, for the row of that id and user. *)
Theorem updateHabit_frame srv st u id (updates : HabitUpdates.t) :
  let o := run serve (updateHabit (Some u) id updates) srv st in
  Forall2 (updateFrame id updates) (habits (data st))
    (habits (UseHabits.updateHabit id updates (data st)))
  ∧ Forall2 (updateFrame id updates) (habits (data st))
      (habits (data (final o)))
  ∧ remoteCalls (trace o)
    = [EvRemote (anyRequest (UpdateHabit id u (HabitUpdates.name updates)
                               (HabitUpdates.color updates)))
         (allSucceeded (trace o))].
Proof.
  intros o. split; [apply useHabits_updateHabit_frame|].
  subst o. unfold updateHabit. run_await.
  - split; [apply (useHabits_updateHabit_frame (data st))|done].
  - split; [|done]. apply Forall_Forall2_diag, Forall_forall.
    intros a _. unfold updateFrame. done.
Qed.

End RunFacts.

(** ** The record store *)
Section StoreFacts.
Import UseHabitsDb Client.

Lemma serve_cases R (q : Request R) (w w' : Store.World) (r : Result R) :
  Store.serve R q w = (r, w') →
  (isData r = false ∧ Store.tables w' = Store.tables w)
  ∨ ∃ e, Store.answer e R q (Store.tables w) = (r, Store.tables w').
Proof.
  unfold Store.serve. destruct (Store.unavailable _).
  - intros [= <- <-]. by left.
  - destruct (Store.answer _ R q _) as [r0 t] eqn:Ha.
    intros [= <- <-]. right. eauto.
Qed.






(** The join of [fetchData]. *)
Lemma habitsWithCompletions_ids rows comps :
  Habit.id <$> habitsWithCompletions rows comps = HabitsRow.id <$> rows.
Proof.
  unfold habitsWithCompletions. rewrite <-list_fmap_compose.
  by apply list_fmap_ext.
Qed.


(** *** The invariant of the client *)



Lemma consistent_tables t t' st :
  t' = t → consistent t st → consistent t' st.
Proof. by intros ->. Qed.


Ltac step_serve :=
  simpl run;
  match goal with
  | |- context [Store.serve ?R ?q ?w] =>
      let Hs := fresh "Hs" in
      destruct (Store.serve R q w) as [? ?] eqn:Hs;
      apply serve_cases in Hs as [[Hfail Htab]|[? Hans]];
      [ match type of Hfail with
        | isData ?r = false => destruct r; [discriminate Hfail|]
        end; simpl; rewrite ?Htab
      | ]
  end.








End StoreFacts.

(** ** Examples and counterexamples on the sample data *)
Section Examples.
Import UseHabitsDb Client.




(** A callback reads the habits of the render that created it: called a
    second time before the next render, [toggleHabitDay] decides on the same
    [habits] again, and the date it removed is not put back. *)
Example toggleHabitDay_same_render :
  let st := Sample.loaded in
  let o1 := run Store.serve
              (toggleHabitDay (Some Sample.user) (habits (data st))
                 "b" Sample.today)
              Sample.world st in
  let o2 := run Store.serve
              (toggleHabitDay (Some Sample.user) (habits (data st))
                 "b" Sample.today)
              (server o1) (final o1) in
  allSucceeded (trace o1) = true
  ∧ allSucceeded (trace o2) = true
  ∧ Habit.completedDays <$> habits (data st)
    = [[Sample.yesterday]; [Sample.yesterday; Sample.today]]
  ∧ Habit.completedDays <$> habits (data (final o2))
    = [[Sample.yesterday]; [Sample.yesterday]].
Proof. split_and!; vm_compute; reflexivity. Qed.


Lemma failure_paths_keep_state_witness :
  run Store.serve
    (program None Sample.loaded (CallToggleHabitDay "a" Sample.today))
    Sample.world Sample.loaded
  = mkOutcome Sample.loaded Sample.world []
  ∧ final (run Store.serve
             (program (Some Sample.user) Sample.loaded
                (CallToggleHabitDay "a" Sample.today))
             Sample.offline Sample.loaded)
    = Sample.loaded.
Proof.
  destruct (failure_paths_keep_state Store.serve Sample.offline Sample.loaded)
    as (_ & Hrefused & _).
  destruct (failure_paths_keep_state Store.serve Sample.world Sample.loaded)
    as (Hnone & _).
  split.
  - apply Hnone. reflexivity.
  - apply Hrefused; vm_compute; reflexivity.
Defined.

Lemma addSleepEntry_twice_witness :
  let st := Sample.loaded in
  let o1 := run Store.serve
              (addSleepEntry (Some Sample.user) Sample.yesterday (Qc_of_Z 5))
              Sample.world st in
  let o2 := run Store.serve
              (addSleepEntry (Some Sample.user) Sample.yesterday (Qc_of_Z 8))
              (server o1) (final o1) in
  let after := sleepEntries (data (final o2)) in
  after = sleepEntries
            (UseHabits.addSleepEntry Sample.yesterday (Qc_of_Z 8)
               (UseHabits.addSleepEntry Sample.yesterday (Qc_of_Z 5)
                  (data st)))
  ∧ filter (λ e, SleepEntry.date e = Sample.yesterday) after
    = [SleepEntry.mk Sample.yesterday (Qc_of_Z 8)]
  ∧ filter (λ e, SleepEntry.date e ≠ Sample.yesterday) after
    = filter (λ e, SleepEntry.date e ≠ Sample.yesterday)
        (sleepEntries (data st)).
Proof.
  apply (addSleepEntry_twice Store.serve Sample.world Sample.loaded
           Sample.user Sample.yesterday (Qc_of_Z 5) (Qc_of_Z 8)).
  - compute_done.
  - vm_compute. reflexivity.
  - vm_compute. reflexivity.
Defined.




(** The store refuses such a value, and the remote-backed hook then keeps its
    entries. *)
Example store_refuses_hours_out_of_range :
  let o := run Store.serve
             (addSleepEntry (Some Sample.user) Sample.today (Qc_of_Z 25))
             Sample.world Sample.loaded in
  trace o
  = [EvRemote (anyRequest (UpsertSleep Sample.today (Qc_of_Z 25) Sample.user))
       false;
     EvToastError "Failed to save sleep entry"]
  ∧ final o = Sample.loaded
  ∧ Store.tables (server o) = Store.tables Sample.world.
Proof. split_and!; vm_compute; reflexivity. Qed.


(** C9, as stated, fails: updates may carry completedDays, and the local
    patch of either hook then replaces the completion list, while the remote
    write leaves the completions alone. *)
Lemma updateHabit_replaces_completedDays :
  let updates := HabitUpdates.mk None None (Some [Sample.today]) in
  let o := run Store.serve (updateHabit (Some Sample.user) "a" updates)
             Sample.world Sample.loaded in
  Habit.completedDays <$> habits (data Sample.loaded)
  = [[Sample.yesterday]; [Sample.yesterday; Sample.today]]
  ∧ Habit.completedDays <$>
      habits (UseHabits.updateHabit "a" updates (data Sample.loaded))
    = [[Sample.today]; [Sample.yesterday; Sample.today]]
  ∧ allSucceeded (trace o) = true
  ∧ Habit.completedDays <$> habits (data (final o))
    = [[Sample.today]; [Sample.yesterday; Sample.today]]
  ∧ Store.habit_completions (Store.tables (server o))
    = Store.habit_completions (Store.tables Sample.world).
Proof. split_and!; vm_compute; reflexivity. Qed.



End Examples.

(** ** More on the localStorage hook *)
Section UseHabitsFacts.

(** X1: toggleHabitDay flips whether the date is in the completion list of
    every habit with the given identifier, keeps every other date of that
    list, and leaves the habits with another identifier as they are. *)
Theorem useHabits_toggle_flips (c : Collections) (habitId date : string) :
  Forall2
    (λ a b,
       Habit.id b = Habit.id a ∧ Habit.name b = Habit.name a
       ∧ Habit.color b = Habit.color a
       ∧ Habit.createdAt b = Habit.createdAt a
       ∧ (Habit.id a ≠ habitId → b = a)
       ∧ (Habit.id a = habitId →
          (date ∈ Habit.completedDays b ↔ date ∉ Habit.completedDays a)
          ∧ ∀ d, d ≠ date →
              (d ∈ Habit.completedDays b ↔ d ∈ Habit.completedDays a)))
    (habits c) (habits (UseHabits.toggleHabitDay habitId date c))
  ∧ sleepEntries (UseHabits.toggleHabitDay habitId date c) = sleepEntries c
  ∧ tasks (UseHabits.toggleHabitDay habitId date c) = tasks c
  ∧ notes (UseHabits.toggleHabitDay habitId date c) = notes c.
Proof.
  split; [|done]. simpl.
  apply Forall2_fmap_r, Forall_Forall2_diag, Forall_forall. intros a _.
  unfold compose. cbv beta. case_decide as Hne; simpl.
  { by split_and!. }
  split_and!; try done. intros _. unfold includes.
  destruct (bool_decide (date ∈ Habit.completedDays a)) eqn:Hin.
  - apply bool_decide_eq_true in Hin. split.
    + rewrite list_elem_of_filter. split; [by intros [? _]|done].
    + intros d Hd. rewrite list_elem_of_filter. split; [by intros [_ ?]|done].
  - apply bool_decide_eq_false in Hin. split.
    + split; [done|]. intros _. apply elem_of_app. right. by left.
    + intros d Hd. rewrite elem_of_app, list_elem_of_singleton.
      split; [by intros [?|?]|by left].
Qed.

(** X2: in the localStorage hook, adding a habit, a task or a note under an
    identifier no element of the list carries, then deleting that
    identifier, gives back the collections as they were. *)
Theorem useHabits_add_delete (c : Collections) (uuid : string) (now : Date)
    (s1 s2 : string) (color : option string) :
  (uuid ∉ Habit.id <$> habits c →
   UseHabits.deleteHabit uuid (UseHabits.addHabit uuid now s1 s2 c) = c)
  ∧ (uuid ∉ CalendarTask.id <$> tasks c →
     UseHabits.deleteTask uuid (UseHabits.addTask uuid s1 s2 color c) = c)
  ∧ (uuid ∉ Note.id <$> notes c →
     UseHabits.deleteNote uuid (UseHabits.addNote uuid now s1 s2 c) = c).
Proof.
  assert (Hkeep : ∀ {A} (key : A → string) (l : list A) (x : A),
    key x = uuid → uuid ∉ key <$> l →
    filter (λ a, key a ≠ uuid) (l ++ [x]) = l).
  { intros A key l x Hx Hfresh.
    rewrite filter_app, filter_cons_False, filter_nil, app_nil_r
      by (intros Hne; by apply Hne).
    induction l as [|a l IH]; [done|].
    rewrite fmap_cons in Hfresh. apply not_elem_of_cons in Hfresh as [Ha Hl].
    rewrite filter_cons_True by done. f_equal. by apply IH. }
  destruct c as [hs ss ts ns].
  unfold UseHabits.deleteHabit, UseHabits.addHabit, UseHabits.deleteTask,
    UseHabits.addTask, UseHabits.deleteNote, UseHabits.addNote,
    setHabits, setTasks, setNotes. simpl.
  split_and!; intros Hfresh; f_equal.
  - by apply (Hkeep _ Habit.id).
  - by apply (Hkeep _ CalendarTask.id).
  - by apply (Hkeep _ Note.id).
Qed.

Lemma useHabits_addSleepEntry_find (prev : list SleepEntry.t) hs ts ns d h :
  ∃ i, list_find (λ e, SleepEntry.date e = d)
         (sleepEntries
            (UseHabits.addSleepEntry d h (mkCollections hs prev ts ns)))
       = Some (i, SleepEntry.mk d h)
     ∧ (list_find (λ e, SleepEntry.date e = d) prev = None → i = length prev)
     ∧ (∀ j x, list_find (λ e, SleepEntry.date e = d) prev = Some (j, x) →
          i = j).
Proof.
  induction prev as [|e prev (i & IH & Hnone & Hsome)].
  - exists 0%nat. simpl. rewrite decide_True by done. done.
  - rewrite useHabits_addSleepEntry_cons.
    destruct (decide (SleepEntry.date e = d)) as [He|He].
    + exists 0%nat. simpl. rewrite decide_True by done.
      rewrite decide_True by done. split_and!; [done|done|].
      by intros j x [= <- _].
    + exists (S i). cbn [list_find]. rewrite decide_False by done.
      rewrite IH. simpl. rewrite decide_False by done.
      split_and!; [done| |].
      * destruct (list_find _ prev) as [[j x]|] eqn:Hf; [done|].
        intros _. f_equal. by apply Hnone.
      * intros j x. destruct (list_find _ prev) as [[j' x']|] eqn:Hf;
          [|done]. simpl. intros [= <- <-]. f_equal. by eapply Hsome.
Qed.

(** X3: the last addSleepEntry for a date wins, whatever the collection
    holds: writing h1 then h2 for a date leaves the collections as writing
    h2 alone does; the list grows by one entry when the date had none and
    keeps its length otherwise; and a list with at most one entry per date
    stays so. *)
Theorem useHabits_addSleepEntry_last_wins (c : Collections) (d : string)
    (h1 h2 : Qc) :
  UseHabits.addSleepEntry d h2 (UseHabits.addSleepEntry d h1 c)
  = UseHabits.addSleepEntry d h2 c
  ∧ length (sleepEntries (UseHabits.addSleepEntry d h1 c))
    = (if decide (d ∈ SleepEntry.date <$> sleepEntries c)
       then length (sleepEntries c) else S (length (sleepEntries c)))
  ∧ (NoDup (SleepEntry.date <$> sleepEntries c) →
     NoDup (SleepEntry.date <$>
              sleepEntries (UseHabits.addSleepEntry d h1 c))).
Proof.
  split_and!.
  - destruct c as [hs prev ts ns].
    unfold UseHabits.addSleepEntry at 1. unfold setSleepEntries at 1.
    cbn [habits tasks notes].
    destruct (useHabits_addSleepEntry_find prev hs ts ns d h1)
      as (i & Hfind & Hnone & Hsome).
    rewrite Hfind. simpl.
    destruct (list_find _ prev) as [[j x]|] eqn:Hf.
    + rewrite (Hsome j x eq_refl).
      unfold UseHabits.addSleepEntry, setSleepEntries. simpl.
      by rewrite Hf, list_insert_insert_eq.
    + rewrite (Hnone eq_refl).
      unfold UseHabits.addSleepEntry, setSleepEntries. simpl.
      rewrite Hf, insert_app_r_alt, Nat.sub_diag by done. done.
  - destruct c as [hs prev ts ns]. simpl.
    destruct (list_find _ prev) as [[j x]|] eqn:Hf.
    + rewrite length_insert. rewrite decide_True; [done|].
      apply list_find_Some in Hf as (Hj & <- & _).
      apply list_elem_of_fmap_2. by eapply list_elem_of_lookup_2.
    + rewrite length_app. simpl. rewrite decide_False; [lia|].
      apply list_find_None in Hf. rewrite Forall_forall in Hf.
      intros (e & -> & He)%list_elem_of_fmap. by eapply Hf.
  - intros Hnd. by apply useHabits_addSleepEntry_entries.
Qed.

End UseHabitsFacts.

(** ** The components over the hook *)
Section ComponentFacts.
Import UseHabitsDb.

(** The grid reads back the hours just written for a day. *)
Lemma getSleepForDate_written (c : Collections) (d : string) (h : Qc) :
  SleepTracker.getSleepForDate
    (sleepEntries (UseHabits.addSleepEntry d h c)) d = Some h.
Proof.
  destruct c as [hs prev ts ns].
  destruct (useHabits_addSleepEntry_find prev hs ts ns d h)
    as (i & Hfind & _).
  unfold SleepTracker.getSleepForDate. by rewrite Hfind.
Qed.

(** X4: after addSleepEntry(d, h) the sleep grid reads h for the day d and
    what it read before for every other day, so of the cells of day d
    exactly the one of row h is selected; this holds whatever the
    collection held. *)
Theorem getSleepForDate_addSleepEntry (c : Collections) (d : string)
    (h : Qc) :
  let after := sleepEntries (UseHabits.addSleepEntry d h c) in
  SleepTracker.getSleepForDate after d = Some h
  ∧ (∀ d', d' ≠ d →
       SleepTracker.getSleepForDate after d'
       = SleepTracker.getSleepForDate (sleepEntries c) d')
  ∧ (∀ h', SleepTracker.isSelected after d h' = bool_decide (h' = h)).
Proof.
  intros after. pose proof (getSleepForDate_written c d h) as Hd.
  fold after in Hd.
  split_and!; [done| |].
  - intros d' Hd'. subst after. clear Hd. destruct c as [hs prev ts ns].
    unfold SleepTracker.getSleepForDate. f_equal.
    induction prev as [|e prev IH].
    + simpl. by rewrite decide_False.
    + rewrite useHabits_addSleepEntry_cons.
      destruct (decide (SleepEntry.date e = d)) as [He|He].
      * cbn [list_find]. simpl.
        by rewrite !decide_False by congruence.
      * cbn [list_find]. rewrite IH. simpl sleepEntries. done.
  - intros h'. unfold SleepTracker.isSelected. rewrite Hd.
    apply bool_decide_ext. split; [by intros [= ->]|by intros ->].
Qed.

(** X5: saving the edit of a habit changes the name and the color of the
    habits carrying its identifier and nothing else (no completion list, no
    creation time, no other habit, no other collection); with a blank name,
    or with no habit being edited, nothing is called and nothing changes. *)
Theorem handleEditHabit_effect (trim : string → string)
    (s : HabitGrid.State) (c : Collections) (uuid : string) (now : Date) :
  let result := HabitGrid.handleEditHabit trim s in
  let after := HabitGrid.perform uuid now (snd result) c in
  match HabitGrid.editingHabit s with
  | Some habit =>
      if decide (trim (HabitGrid.editName s) = EmptyString)
      then result = (s, None) ∧ after = c
      else
        HabitGrid.editingHabit (fst result) = None
        ∧ habits after
          = (λ a, if decide (Habit.id a = Habit.id habit)
                  then Habit.mk (Habit.id a) (trim (HabitGrid.editName s))
                         (HabitGrid.editColor s) (Habit.createdAt a)
                         (Habit.completedDays a)
                  else a) <$> habits c
        ∧ sleepEntries after = sleepEntries c
        ∧ tasks after = tasks c
        ∧ notes after = notes c
  | None => result = (s, None) ∧ after = c
  end.
Proof.
  intros result after. subst after result.
  unfold HabitGrid.handleEditHabit.
  destruct (HabitGrid.editingHabit s) as [habit|]; [|done].
  destruct (decide (trim (HabitGrid.editName s) = EmptyString)) as [He|He].
  - by rewrite decide_False by (intros Hne; by apply Hne).
  - rewrite decide_True by done. simpl. split_and!; try done.
Qed.

Section Calendar.
Variable trim : string → string.
Variable format : Z → string.

(** X6: when the calendar's add handler calls addTask (a day is selected
    and the title is not blank), the new task, not completed, is the last of
    the tasks of the selected day, the tasks shown for a day with another
    date string are the same as before, and the form is reset; otherwise
    nothing is called. *)
Theorem handleAddTask_effect (s : CalendarView.State) (c : Collections)
    (uuid : string) :
  match CalendarView.handleAddTask trim format s with
  | (s', Some (title, dateStr, color)) =>
      ∃ date,
        CalendarView.selectedDate s = Some date
        ∧ title = trim (CalendarView.newTaskTitle s)
        ∧ title ≠ EmptyString
        ∧ CalendarView.newTaskTitle s' = EmptyString
        ∧ CalendarView.selectedDateTasks format
            (tasks (UseHabits.addTask uuid title dateStr color c)) s'
          = CalendarView.getTasksForDate format (tasks c) date
              ++ [CalendarTask.mk uuid title (format date) false
                    (Some (CalendarView.newTaskColor s))]
        ∧ ∀ other, format other ≠ format date →
            CalendarView.getTasksForDate format
              (tasks (UseHabits.addTask uuid title dateStr color c)) other
            = CalendarView.getTasksForDate format (tasks c) other
  | (s', None) =>
      s' = s
      ∧ (CalendarView.selectedDate s = None
         ∨ trim (CalendarView.newTaskTitle s) = EmptyString)
  end.
Proof.
  unfold CalendarView.handleAddTask.
  destruct (CalendarView.selectedDate s) as [date|] eqn:Hsel;
    [|split; [done|by left]].
  destruct (decide (trim (CalendarView.newTaskTitle s) ≠ EmptyString))
    as [Hne|He].
  - exists date. split_and!; try done.
    + unfold CalendarView.selectedDateTasks. simpl.
      unfold CalendarView.getTasksForDate. simpl.
      by rewrite filter_app, filter_cons_True, filter_nil by done.
    + intros other Hother. unfold CalendarView.getTasksForDate. simpl.
      rewrite filter_app, filter_cons_False, filter_nil, app_nil_r; [done|].
      simpl. congruence.
  - split; [done|]. right. by apply dec_stable in He.
Qed.
End Calendar.

(** X7: with pairwise distinct task identifiers, ticking the check box of a
    task twice (each tick passes the negation of the completed flag the task
    then has) gives back the tasks as they were; one tick flips the flag of
    that task only. *)
Theorem toggleCompleted_twice (c : Collections) (task : CalendarTask.t) :
  NoDup (CalendarTask.id <$> tasks c) →
  task ∈ tasks c →
  let once := UseHabits.updateTask (CalendarTask.id task)
                (CalendarView.toggleCompleted task) c in
  let ticked := spread_task task (CalendarView.toggleCompleted task) in
  ticked ∈ tasks once
  ∧ CalendarTask.completed ticked = negb (CalendarTask.completed task)
  ∧ Forall2 (λ a b, a ≠ task → b = a) (tasks c) (tasks once)
  ∧ UseHabits.updateTask (CalendarTask.id task)
      (CalendarView.toggleCompleted ticked) once = c.
Proof.
  intros Hids Htask once ticked.
  assert (Huniq : ∀ a, a ∈ tasks c →
            CalendarTask.id a = CalendarTask.id task → a = task).
  { intros a (i & Hi)%list_elem_of_lookup Heq.
    apply list_elem_of_lookup in Htask as [j Hj].
    assert (i = j) as ->; [|congruence].
    eapply (NoDup_lookup _ _ _ (CalendarTask.id task) Hids);
      rewrite list_lookup_fmap; [rewrite Hi|rewrite Hj]; simpl; congruence. }
  split_and!.
  - subst once. simpl.
    apply list_elem_of_fmap. exists task. split; [|done].
    by rewrite decide_True.
  - done.
  - subst once. simpl.
    apply Forall2_fmap_r, Forall_Forall2_diag, Forall_forall.
    intros a Ha. unfold compose. case_decide as Hid; [|done].
    intros Hne. destruct Hne. by apply Huniq.
  - subst once. destruct c as [hs ss ts ns].
    unfold UseHabits.updateTask, setTasks. simpl. f_equal.
    rewrite <-list_fmap_compose. rewrite <-(list_fmap_id ts) at 2.
    apply Forall_fmap_ext, Forall_forall. intros a Ha. simpl.
    destruct (decide (CalendarTask.id a = CalendarTask.id task)) as [Hid|Hid].
    + rewrite (Huniq a Ha Hid). subst ticked.
      destruct task as [i t d cpl col]. simpl.
      rewrite !decide_True by done. simpl. by destruct cpl.
    + by rewrite decide_False.
Qed.

End ComponentFacts.

(** ** More on the metrics *)
Section MetricFacts.
Import Dashboard.

Lemma completedToday_le habits today :
  0 ≤ completedToday habits today ≤ totalHabits habits.
Proof.
  unfold completedToday, totalHabits.
  pose proof (length_filter
    (λ h, includes (Habit.completedDays h) today = true) habits). lia.
Qed.

Lemma round_percent_bounds (c t : Z) :
  0 < t → 0 ≤ c ≤ t →
  0 ≤ (200 * c + t) / (2 * t) ≤ 100
  ∧ ((200 * c + t) / (2 * t) = 100 ↔ 199 * t ≤ 200 * c)
  ∧ ((200 * c + t) / (2 * t) = 0 ↔ 200 * c < t).
Proof.
  intros Ht Hc.
  pose proof (Z.div_mod (200 * c + t) (2 * t) ltac:(lia)) as Hdm.
  pose proof (Z.mod_pos_bound (200 * c + t) (2 * t) ltac:(lia)) as Hb.
  split_and!; [nia|nia|split; nia|split; nia].
Qed.

Lemma completionRate_range habits today :
  0 ≤ completionRate habits today ≤ 100.
Proof.
  pose proof (completedToday_le habits today) as Hc.
  destruct (decide (totalHabits habits > 0)) as [Ht|Ht].
  - rewrite completionRate_pos by done.
    by destruct (round_percent_bounds (completedToday habits today)
                   (totalHabits habits) ltac:(lia) Hc) as (Hb & _).
  - unfold completionRate. rewrite decide_False by done. lia.
Qed.

(** X8: the completion rate is between 0 and 100; with fewer than 200
    habits it is 100 exactly when every habit is completed today and 0
    exactly when none is (from 200 habits on, 199 of 200 already round to
    100). *)
Theorem completionRate_bounds (habits : list Habit.t) (today : string) :
  0 ≤ completionRate habits today ≤ 100
  ∧ (0 < totalHabits habits < 200 →
     (completionRate habits today = 100
      ↔ completedToday habits today = totalHabits habits)
     ∧ (completionRate habits today = 0
        ↔ completedToday habits today = 0)).
Proof.
  pose proof (completedToday_le habits today) as Hc.
  destruct (decide (totalHabits habits > 0)) as [Ht|Ht].
  - rewrite completionRate_pos by done.
    destruct (round_percent_bounds (completedToday habits today)
                (totalHabits habits) ltac:(lia) Hc) as (Hb & H100 & H0).
    split; [done|]. intros Hsmall. rewrite H100, H0. lia.
  - unfold completionRate. rewrite decide_False by done.
    split; [lia|]. intros Hsmall. lia.
Qed.

Lemma completionRate_bounds_witness :
  let habits :=
    [Habit.mk "h1" "Read" "#f00" 0 ["2026-11-02"];
     Habit.mk "h2" "Run" "#0f0" 0 ["2026-11-02"]] in
  (completionRate habits "2026-11-02" = 100
   ↔ completedToday habits "2026-11-02" = totalHabits habits)
  ∧ (completionRate habits "2026-11-02" = 0
     ↔ completedToday habits "2026-11-02" = 0).
Proof.
  apply completionRate_bounds. vm_compute. split; reflexivity.
Defined.

Section StreakBound.
Variable format : Z → string.

Lemma streak_prefix_bounded habits today (n m : nat) :
  NoDup ((λ i : nat, format (today - Z.of_nat i)) <$> seq 0 m) →
  (n ≤ m)%nat →
  (∀ i : nat, (i < n)%nat →
     anyCompleted habits (format (today - Z.of_nat i)) = true) →
  (n ≤ length (allCompletions habits))%nat.
Proof.
  intros Hnd Hnm Hdays.
  set (days := (λ i : nat, format (today - Z.of_nat i)) <$> seq 0 n).
  assert (Hpre : NoDup days).
  { eapply sublist_NoDup; [exact Hnd|]. unfold days.
    apply fmap_sublist. replace m with (n + (m - n))%nat by lia.
    rewrite seq_app. apply sublist_inserts_r. done. }
  assert (Hsub : ∀ s, s ∈ days → s ∈ allCompletions habits).
  { intros s Hs. apply list_elem_of_fmap in Hs as (i & -> & Hi).
    apply elem_of_seq in Hi. apply anyCompleted_allCompletions, Hdays. lia. }
  pose proof (submseteq_length _ _ (NoDup_submseteq _ _ Hpre Hsub)) as Hlen.
  unfold days in Hlen. by rewrite length_fmap, length_seq in Hlen.
Qed.

(** X9: calculateStreak ends: when the days from today back over one more
    day than there are recorded completion dates have pairwise different
    date strings, the loop breaks after at most that many turns, and the
    streak it returns is at most the number of recorded completion dates. *)
Theorem calculateStreak_terminates (habits : list Habit.t) (today : Z) :
  NoDup ((λ i : nat, format (today - Z.of_nat i))
           <$> seq 0 (S (length (allCompletions habits)))) →
  ∃ n : nat,
    (n ≤ length (allCompletions habits))%nat
    ∧ ∀ fuel, (n < fuel)%nat →
        calculateStreak format fuel habits today = Some n.
Proof.
  intros Hnd.
  assert (Hfirst : ∀ m : nat,
    (∀ i : nat, (i < m)%nat →
       anyCompleted habits (format (today - Z.of_nat i)) = true)
    ∨ ∃ n : nat, (n < m)%nat
        ∧ (∀ i : nat, (i < n)%nat →
             anyCompleted habits (format (today - Z.of_nat i)) = true)
        ∧ anyCompleted habits (format (today - Z.of_nat n)) = false).
  { induction m as [|m [IH|(n & Hn & Hdays & Hgap)]].
    - left. intros i Hi. lia.
    - destruct (anyCompleted habits (format (today - Z.of_nat m))) eqn:Hm.
      + left. intros i Hi. destruct (decide (i = m)) as [->|]; [done|].
        apply IH. lia.
      + right. exists m. split; [lia|done].
    - right. exists n. split; [lia|done]. }
  destruct (Hfirst (S (length (allCompletions habits))))
    as [Hall|(n & Hn & Hdays & Hgap)].
  - pose proof (streak_prefix_bounded _ _ _ _ Hnd (le_n _) Hall). lia.
  - exists n. split; [lia|].
    intros fuel Hfuel. by apply calculateStreak_stop.
Qed.
End StreakBound.

Lemma calculateStreak_terminates_witness :
  let habits :=
    [Habit.mk "h1" "Read" "#f00" 0 ["2026-10-31"; "2026-11-02"];
     Habit.mk "h2" "Run" "#0f0" 0 ["2026-11-01"; "2026-11-02"]] in
  ∃ n : nat,
    (n ≤ length (allCompletions habits))%nat
    ∧ ∀ fuel, (n < fuel)%nat →
        calculateStreak DateFns.yyyy_MM_dd fuel habits 20759 = Some n.
Proof.
  apply calculateStreak_terminates. compute_done.
Defined.

End MetricFacts.

(** ** The analytics page *)
Section AnalyticsFacts.
Import Analytics.
Variable format : string → Z → string.

Lemma percentageOf_completionRate habits dateStr :
  percentageOf (completedOn habits dateStr) (Z.of_nat (length habits))
  = Dashboard.completionRate habits dateStr.
Proof. done. Qed.

(** X10: the weekly chart has seven bars, for the days from six days ago to
    today in that order; the percentage of each is the dashboard's
    completion rate for that day, so between 0 and 100, and its total is the
    number of habits. *)
Theorem weeklyData_rates (habits : list Habit.t) (today : Z) :
  length (weeklyData format habits today) = 7%nat
  ∧ percentage <$> weeklyData format habits today
    = (λ i, Dashboard.completionRate habits
              (format "yyyy-MM-dd" (today - (6 - i)))) <$> seqZ 0 7
  ∧ percentage <$> last (weeklyData format habits today)
    = Some (Dashboard.completionRate habits (format "yyyy-MM-dd" today))
  ∧ Forall (λ e, 0 ≤ percentage e ≤ 100
                 ∧ total e = Z.of_nat (length habits)
                 ∧ 0 ≤ completed e ≤ total e)
      (weeklyData format habits today).
Proof.
  split_and!.
  - unfold weeklyData. by rewrite length_fmap, length_seqZ.
  - unfold weeklyData. rewrite <-list_fmap_compose. by apply list_fmap_ext.
  - unfold weeklyData. rewrite fmap_last. vm_compute seqZ. simpl.
    do 2 f_equal. rewrite percentageOf_completionRate. do 2 f_equal. lia.
  - unfold weeklyData. apply Forall_fmap, Forall_forall. intros i _. simpl.
    rewrite percentageOf_completionRate. split_and!; [| |done|..].
    + apply completionRate_range.
    + apply completionRate_range.
    + apply (completedToday_le habits).
    + apply (completedToday_le habits).
Qed.

Lemma round_thirtieth (k : Z) :
  Dashboard.Math_round ((inject_Z k / inject_Z 30) * inject_Z 100)%Q
  = (200 * k + 30) / 60.
Proof. by rewrite Math_round_ratio. Qed.

(** X11: for every habit the analytics page keeps the name and the color,
    counts all its completion dates, and counts among them those of the last
    30 days; when the completion list has no repeated date that count is at
    most 30 and the 30-day rate at most 100 (a repeated date is counted each
    time). *)
Theorem habitStats_bounds (habits : list Habit.t) (today : Z) :
  Forall2
    (λ habit stat,
       name stat = Habit.name habit ∧ color stat = Habit.color habit
       ∧ totalDays stat = Z.of_nat (length (Habit.completedDays habit))
       ∧ 0 ≤ last30Count stat ≤ totalDays stat
       ∧ 0 ≤ completionRate stat
       ∧ (NoDup (Habit.completedDays habit) →
          last30Count stat ≤ 30 ∧ completionRate stat ≤ 100))
    habits (habitStats format habits today).
Proof.
  unfold habitStats. apply Forall2_fmap_r, Forall_Forall2_diag, Forall_forall.
  intros habit _. simpl.
  set (recent := filter (λ d, includes (last30Days format today) d = true)
                   (Habit.completedDays habit)).
  pose proof (length_filter
    (λ d, includes (last30Days format today) d = true)
    (Habit.completedDays habit)) as Hle. fold recent in Hle.
  rewrite round_thirtieth.
  split_and!; try done; try lia.
  - apply Z.div_pos; lia.
  - intros Hnd.
    assert (Hrecent : (length recent ≤ 30)%nat).
    { replace 30%nat with (length (last30Days format today))
        by (unfold last30Days; by rewrite length_fmap, length_seqZ).
      apply submseteq_length, NoDup_submseteq.
      - by apply NoDup_filter.
      - intros d [Hd _]%list_elem_of_filter. unfold includes in Hd.
        by apply bool_decide_eq_true in Hd. }
    split; [lia|].
    assert ((200 * Z.of_nat (length recent) + 30) / 60 < 101)
      by (apply Z.div_lt_upper_bound; lia).
    lia.
Qed.

End AnalyticsFacts.

Section BestHabit.
Import Analytics.

Lemma bestHabit_fold (first : HabitStat) (rest : list HabitStat) :
  let best := foldl (λ best h,
                       if decide (completionRate h > completionRate best)
                       then h else best) first rest in
  ∃ before after,
    first :: rest = before ++ best :: after
    ∧ Forall (λ s, completionRate s < completionRate best) before
    ∧ Forall (λ s, completionRate s ≤ completionRate best) after.
Proof.
  induction rest as [|x rest IH] using rev_ind.
  - exists [], []. by split_and!.
  - simpl. rewrite foldl_app. simpl.
    destruct IH as (before & after & Heq & Hbefore & Hafter).
    set (best := foldl _ first rest) in *.
    destruct (decide (completionRate x > completionRate best)) as [Hgt|Hle].
    + exists (first :: rest), []. split_and!; [done| |done].
      rewrite Heq. apply Forall_app. split.
      * eapply Forall_impl; [exact Hbefore|]. intros s Hs. simpl in Hs. lia.
      * apply Forall_cons. split; [lia|].
        eapply Forall_impl; [exact Hafter|]. intros s Hs. simpl in Hs. lia.
    + exists before, (after ++ [x]). split_and!; [|done|].
      * rewrite app_comm_cons, Heq. by rewrite <-app_assoc.
      * apply Forall_app. split; [done|]. apply Forall_singleton. lia.
Qed.

(** X12: the best habit of the analytics page is absent exactly when there
    is no habit; otherwise it is a habit of the list whose 30-day rate no
    other habit exceeds, and among habits of that rate the first of the
    list. *)
Theorem bestHabit_first_maximum (stats : list HabitStat) :
  (bestHabit stats = None ↔ stats = [])
  ∧ ∀ best, bestHabit stats = Some best →
      ∃ before after,
        stats = before ++ best :: after
        ∧ Forall (λ s, completionRate s < completionRate best) before
        ∧ Forall (λ s, completionRate s ≤ completionRate best) after.
Proof.
  destruct stats as [|first rest]; simpl.
  - split; [done|]. by intros best.
  - split; [done|]. intros best [= <-]. apply bestHabit_fold.
Qed.

Lemma foldl_hours_sum (entries : list SleepEntry.t) (acc : Qc) :
  foldl (λ sum e, sum + SleepEntry.hours e)%Qc acc entries
  = (acc + foldl (λ sum e, sum + SleepEntry.hours e)%Qc 0 entries)%Qc.
Proof.
  revert acc. induction entries as [|e entries IH]; intros acc; simpl.
  - by rewrite Qcplus_0_r.
  - rewrite IH, (IH (0 + SleepEntry.hours e)%Qc).
    rewrite Qcplus_0_l. by rewrite Qcplus_assoc.
Qed.

Lemma hours_sum_bounds (entries : list SleepEntry.t) :
  Forall (λ e, Store.hoursCheck (SleepEntry.hours e)) entries →
  (0 ≤ foldl (λ sum e, sum + SleepEntry.hours e)%Qc 0 entries
   ≤ Qc_of_Z 24 * Qc_of_Z (Z.of_nat (length entries)))%Qc.
Proof.
  induction 1 as [|e entries [He0 He24] _ [IH0 IH24]].
  - cbn [foldl length]. change (Z.of_nat 0) with 0.
    split; [done|]. by rewrite Z2Qc_inj_0, Qcmult_0_r.
  - cbn [foldl]. rewrite foldl_hours_sum, Qcplus_0_l. split.
    + rewrite <-(Qcplus_0_l 0). by apply Qcplus_le_compat.
    + cbn [length]. rewrite Nat2Z.inj_succ, <-Z.add_1_l, Z2Qc_inj_add,
        Z2Qc_inj_1, Qcmult_plus_distr_r, Qcmult_1_r.
      by apply Qcplus_le_compat.
Qed.

Lemma mean_bounds (sum n : Qc) :
  (0 < n → 0 ≤ sum ≤ Qc_of_Z 24 * n → 0 ≤ sum / n ≤ Qc_of_Z 24)%Qc.
Proof.
  intros Hn [H0 H24].
  assert (Hne : n ≠ 0%Qc) by (by apply not_symmetry, Qclt_not_eq).
  assert (Hmul : (sum / n * n)%Qc = sum)
    by (by rewrite Qcmult_comm, Qcmult_div_r).
  split; apply (Qcmult_lt_0_le_reg_r _ _ n Hn); rewrite Hmul.
  - by rewrite Qcmult_0_l.
  - done.
Qed.

(** X13: the average sleep shown is the placeholder when there is no entry;
    with entries of hours within [0, 24] it is the decimal writing, with one
    digit after the point, of n / 10 for an integer n between 0 and 240 at
    most 1/2 away from ten times the mean of the hours. *)
Theorem avgSleep_display (sleepEntries : list SleepEntry.t) :
  let mean :=
    (foldl (λ sum e, sum + SleepEntry.hours e)%Qc (Qc_of_Z 0) sleepEntries
     / Qc_of_Z (Z.of_nat (length sleepEntries)))%Qc in
  (sleepEntries = [] → avgSleep sleepEntries = "—")
  ∧ (sleepEntries ≠ [] →
     Forall (λ e, Store.hoursCheck (SleepEntry.hours e)) sleepEntries →
     ∃ n : Z,
       0 ≤ n ≤ 240
       ∧ avgSleep sleepEntries = pretty (n / 10) +:+ "." +:+ pretty (n `mod` 10)
       ∧ (inject_Z n - (1 # 2) <= this mean * inject_Z 10
          <= inject_Z n + (1 # 2))%Q).
Proof.
  intros mean. split; [by intros ->|]. intros Hne Hrange.
  assert (Hlen : (0 < length sleepEntries)%nat)
    by (destruct sleepEntries; [done|simpl; lia]).
  assert (Hmean : (0 ≤ mean ≤ Qc_of_Z 24)%Qc).
  { subst mean. rewrite Z2Qc_inj_0. apply mean_bounds.
    - rewrite <-Z2Qc_inj_0. apply (proj1 (Z2Qc_inj_lt 0 _)). lia.
    - by apply hours_sum_bounds. }
  destruct Hmean as [Hlo Hhi].
  unfold avgSleep. rewrite decide_True by done. fold mean.
  unfold toFixed1.
  rewrite !decide_False by (rewrite Z2Qc_inj_0; by apply Qcle_not_lt).
  set (x := (this mean * inject_Z 10 + (1 # 2))%Q).
  assert (Hx0 : (0 <= this mean)%Q) by exact Hlo.
  assert (Hx24 : (this mean <= 24)%Q) by exact Hhi.
  pose proof (Qfloor_le x) as Hfl.
  pose proof (Qlt_floor x) as Hfu.
  exists (Qfloor x). split_and!.
  - replace 0 with (Qfloor 0) by done.
    apply Qfloor_resp_le. unfold x, inject_Z. lra.
  - replace 240 with (Qfloor (481 # 2)) by done.
    apply Qfloor_resp_le. unfold x, inject_Z. lra.
  - done.
  - rewrite inject_Z_plus in Hfu. unfold x in *.
    change (inject_Z 1) with 1%Q in Hfu. change (inject_Z 10) with 10%Q in *.
    lra.
  - rewrite inject_Z_plus in Hfu. unfold x in *.
    change (inject_Z 1) with 1%Q in Hfu. change (inject_Z 10) with 10%Q in *.
    lra.
Qed.

Lemma avgSleep_display_witness :
  let entries :=
    [SleepEntry.mk "2026-10-31" (Q2Qc (13 # 2));
     SleepEntry.mk "2026-11-01" (Qc_of_Z 7);
     SleepEntry.mk "2026-11-02" (Qc_of_Z 8)] in
  avgSleep entries = "7.2"
  ∧ ∃ n : Z,
      0 ≤ n ≤ 240
      ∧ avgSleep entries = pretty (n / 10) +:+ "." +:+ pretty (n `mod` 10)
      ∧ (inject_Z n - (1 # 2)
         <= this (foldl (λ sum e, sum + SleepEntry.hours e)%Qc (Qc_of_Z 0)
                    entries
                  / Qc_of_Z (Z.of_nat (length entries)))%Qc * inject_Z 10
         <= inject_Z n + (1 # 2))%Q.
Proof.
  split; [by vm_compute|].
  apply avgSleep_display; [done|]. compute_done.
Defined.

End BestHabit.

Section SleepChart.
Import Analytics.
Variable format : string → Z → string.

(** X14: the weekly sleep chart has seven points, for the days from six days
    ago to today; each is the hours the sleep grid reads for that day, or 0
    when it reads none; after addSleepEntry for today's date the last point
    is the hours just entered. *)
Theorem sleepData_points (c : Collections) (today : Z) (h : Qc) :
  snd <$> sleepData format (sleepEntries c) today
  = (λ i, default (Qc_of_Z 0)
            (SleepTracker.getSleepForDate (sleepEntries c)
               (format "yyyy-MM-dd" (today - (6 - i))))) <$> seqZ 0 7
  ∧ snd <$> last (sleepData format
                    (sleepEntries
                       (UseHabits.addSleepEntry (format "yyyy-MM-dd" today) h
                          c)) today)
    = Some h.
Proof.
  assert (Hpoints : ∀ entries,
    snd <$> sleepData format entries today
    = (λ i, default (Qc_of_Z 0)
              (SleepTracker.getSleepForDate entries
                 (format "yyyy-MM-dd" (today - (6 - i))))) <$> seqZ 0 7).
  { intros entries. unfold sleepData. rewrite <-list_fmap_compose.
    apply list_fmap_ext. intros _ i _. simpl.
    unfold SleepTracker.getSleepForDate.
    destruct (list_find _ entries) as [[j e]|]; simpl; [|done].
    case_decide as He; [by rewrite He|done]. }
  split; [apply Hpoints|].
  rewrite <-fmap_last, Hpoints, fmap_last.
  change (last (seqZ 0 7)) with (Some 6).
  cbn [fmap option_fmap option_map].
  replace (today - (6 - 6)) with today by lia.
  by rewrite getSleepForDate_written.
Qed.

End SleepChart.

(** ** More on the remote-backed hook *)
Section HookFacts.
Import UseHabitsDb Client.
Context {S : Type}.
Variable serve : ∀ R, Request R → S → Result R * S.

Ltac await :=
  simpl;
  match goal with
  | |- context [serve ?R ?q ?srv] =>
      destruct (serve R q srv) as [[?|?] ?]; simpl
  end.

Ltac refused st :=
  split_and!;
  [ done
  | vm_compute; lia
  | by intros [=]
  | intros _; split_and!;
    [ done | done | done
    | first [ intros _; by destruct st as [[]]
            | intros Hle; vm_compute in Hle; lia ] ] ].

(** X15: fetchData for a signed-in user always ends with loading false and
    makes at most five remote calls; initialLoadComplete is set exactly
    when all five are answered; after a refused call an error notice is
    raised, no further call is made, and the notes (fetched last) are those
    held before, as are all four collections when the refused call is one
    of the first two. *)
Theorem fetchData_outcome srv st u :
  let o := run serve (fetchData (Some u)) srv st in
  loading (final o) = false
  ∧ (length (remoteCalls (trace o)) ≤ 5)%nat
  ∧ (allSucceeded (trace o) = true →
     initialLoadComplete (final o) = true
     ∧ length (remoteCalls (trace o)) = 5%nat)
  ∧ (allSucceeded (trace o) = false →
     initialLoadComplete (final o) = initialLoadComplete st
     ∧ notes (data (final o)) = notes (data st)
     ∧ last (trace o) = Some (EvToastError "Failed to load data")
     ∧ ((length (remoteCalls (trace o)) ≤ 2)%nat → data (final o) = data st)).
Proof.
  unfold fetchData.
  await; [|refused st].
  await; [|refused st].
  await; [|refused st].
  await; [|refused st].
  await; [|refused st].
  split_and!; [done|vm_compute; lia| |by intros [=]].
  intros _. split; [done|by vm_compute].
Qed.

Lemma remoteCalls_notices (notices : list Event) :
  Forall (λ e, isRemote e = false) notices → remoteCalls notices = [].
Proof.
  unfold remoteCalls. induction 1 as [|e l He _ IH]; [done|].
  rewrite filter_cons_False by (by rewrite He). done.
Qed.

Lemma mutation_frame srv st user c :
  isMutation c = true →
  let o := run serve (program user st c) srv st in
  loading (final o) = loading st
  ∧ initialLoadComplete (final o) = initialLoadComplete st
  ∧ (length (remoteCalls (trace o)) ≤ 1)%nat.
Proof.
  intros Hc. destruct user as [u|].
  2:{ rewrite mutation_no_user by done. simpl. split_and!; try done. lia. }
  destruct (mutation_outcome serve srv st u c Hc)
    as [Htr Hst _|q msg Htr Hst|q notices Htr Hnot Hl Hi]; cbv zeta;
    rewrite Htr.
  - rewrite Hst. split_and!; try done. simpl. lia.
  - rewrite Hst. split_and!; try done.
  - split_and!; try done. unfold remoteCalls.
    rewrite filter_cons_True by done.
    fold (remoteCalls notices). by rewrite remoteCalls_notices.
Qed.

(** X16: a callback of the habits (addHabit, updateHabit, deleteHabit,
    toggleHabitDay) leaves the sleep entries, the tasks and the notes as
    they are, addSleepEntry the habits, tasks and notes, a task callback the
    habits, sleep entries and notes, a note callback the habits, sleep
    entries and tasks; none changes loading or initialLoadComplete, and
    each makes at most one remote call - whatever the server answers and
    whether a user is signed in or not. *)
Theorem callback_frame srv st user (c : Call) :
  isMutation c = true →
  let o := run serve (program user st c) srv st in
  match c with
  | CallAddHabit _ _ | CallUpdateHabit _ _ | CallDeleteHabit _
  | CallToggleHabitDay _ _ =>
      sleepEntries (data (final o)) = sleepEntries (data st)
      ∧ tasks (data (final o)) = tasks (data st)
      ∧ notes (data (final o)) = notes (data st)
  | CallAddSleepEntry _ _ =>
      habits (data (final o)) = habits (data st)
      ∧ tasks (data (final o)) = tasks (data st)
      ∧ notes (data (final o)) = notes (data st)
  | CallAddTask _ _ _ | CallUpdateTask _ _ | CallDeleteTask _ =>
      habits (data (final o)) = habits (data st)
      ∧ sleepEntries (data (final o)) = sleepEntries (data st)
      ∧ notes (data (final o)) = notes (data st)
  | CallAddNote _ _ | CallUpdateNote _ _ | CallDeleteNote _ =>
      habits (data (final o)) = habits (data st)
      ∧ sleepEntries (data (final o)) = sleepEntries (data st)
      ∧ tasks (data (final o)) = tasks (data st)
  | CallFetchData => True
  end
  ∧ loading (final o) = loading st
  ∧ initialLoadComplete (final o) = initialLoadComplete st
  ∧ (length (remoteCalls (trace o)) ≤ 1)%nat.
Proof.
  intros Hc o. split; [|by apply mutation_frame].
  subst o. destruct user as [u|]; [|by destruct c].
  destruct c; try done; unfold program;
    try (await; by split_and!).
  unfold toggleHabitDay.
  destruct (list_find _ _) as [[i habit]|]; [|done].
  destruct (includes _ _); await; by split_and!.
Qed.

End HookFacts.

(** ** More on the record store *)
Section SchemaFacts.
Import UseHabitsDb Client.










End SchemaFacts.
(** ** The local habits as a mirror of the store *)
Section MirrorFacts.
Import UseHabitsDb Client.

Ltac step_serve :=
  simpl run;
  match goal with
  | |- context [Store.serve ?R ?q ?w] =>
      let Hs := fresh "Hs" in
      let w' := fresh "w'" in
      destruct (Store.serve R q w) as [? w'] eqn:Hs;
      apply serve_cases in Hs as [[Hfail Htab]|[? Hans]];
      [ match type of Hfail with
        | isData ?r = false => destruct r; [discriminate Hfail|]
        end; simpl; rewrite ?Htab
      | destruct w' as [? ? ?]; simpl in Hans |- * ]
  end.



(** The join of [fetchData] over the rows the two selections return. *)
Lemma habitsWithCompletions_mirrors t uid :
  let loaded :=
    habitsWithCompletions
      (Store.orderAscending HabitsRow.created_at
         (filter (λ r, HabitsRow.user_id r = uid) (Store.habits t)))
      (filter (λ r, HabitCompletionsRow.user_id r = uid)
         (Store.habit_completions t)) in
  Mirror.owned t uid loaded ∧ Mirror.completions t uid loaded.
Proof.
  unfold habitsWithCompletions, Store.orderAscending. split.
  - intros h (row & -> & Hrow)%list_elem_of_fmap. simpl.
    rewrite merge_sort_Permutation in Hrow.
    apply list_elem_of_filter in Hrow as [Hu Hrow]. by exists row.
  - intros h (row & -> & Hrow)%list_elem_of_fmap d. simpl.
    rewrite list_elem_of_fmap. split.
    + intros (c & -> & [Hid [Hu Hc]%list_elem_of_filter]%list_elem_of_filter).
      by exists c.
    + intros (c & Hc & Hid & Hd & Hu). exists c. split; [done|].
      apply list_elem_of_filter. split; [done|].
      by apply list_elem_of_filter.
Qed.

(** X18: fetchData reads only: whether or not its requests are answered,
    the tables are as before.  When all five are answered, the local
    habits are the rows of the signed-in user, one habit per row and no
    other, and the completion dates of each are the dates of that user's
    completion rows for it; the sleep entries are that user's rows. *)
Theorem fetchData_loads_owner (w : Store.World) (st : Hook) (uid : string) :
  let o := run Store.serve (fetchData (Some uid)) w st in
  Store.tables (server o) = Store.tables w
  ∧ (allSucceeded (trace o) = true →
     Mirror.mirrors (Store.tables w) (Some uid) (final o)
     ∧ Habit.id <$> habits (data (final o))
       ≡ₚ HabitsRow.id <$>
            filter (λ r, HabitsRow.user_id r = uid)
              (Store.habits (Store.tables w))
     ∧ sleepEntries (data (final o))
       = sleepOfRow <$>
           filter (λ r, SleepEntriesRow.user_id r = uid)
             (Store.sleep_entries (Store.tables w))).
Proof.
  unfold fetchData.
  step_serve; [done|]. injection Hans as <- <-.
  step_serve; [done|]. injection Hans as <- <-.
  step_serve; [done|]. injection Hans as <- <-.
  step_serve; [done|]. injection Hans as <- <-.
  step_serve; [done|]. injection Hans as <- <-.
  split; [done|]. intros _.
  split; [apply habitsWithCompletions_mirrors|]. split; [|done].
  simpl. rewrite habitsWithCompletions_ids. unfold Store.orderAscending.
  by rewrite merge_sort_Permutation.
Qed.







(** What an answered [fetchData] and an answered [deleteHabit] leave. *)
Lemma fetchData_answered w st uid :
  let o := run Store.serve (fetchData (Some uid)) w st in
  allSucceeded (trace o) = true →
  Store.tables (server o) = Store.tables w
  ∧ habits (data (final o))
    = habitsWithCompletions
        (Store.orderAscending HabitsRow.created_at
           (filter (λ r, HabitsRow.user_id r = uid)
              (Store.habits (Store.tables w))))
        (filter (λ r, HabitCompletionsRow.user_id r = uid)
           (Store.habit_completions (Store.tables w))).
Proof.
  unfold fetchData.
  step_serve; [done|]. injection Hans as <- <-.
  step_serve; [done|]. injection Hans as <- <-.
  step_serve; [done|]. injection Hans as <- <-.
  step_serve; [done|]. injection Hans as <- <-.
  step_serve; [done|]. injection Hans as <- <-.
  done.
Qed.

Lemma deleteHabit_answered w st u id :
  let o := run Store.serve (deleteHabit (Some u) id) w st in
  allSucceeded (trace o) = true →
  habits (data (final o)) = filter (λ h, Habit.id h ≠ id) (habits (data st))
  ∧ Store.habits (Store.tables (server o))
    = filter (λ r, ¬ (HabitsRow.id r = id ∧ HabitsRow.user_id r = u))
        (Store.habits (Store.tables w))
  ∧ Store.habit_completions (Store.tables (server o))
    = filter (λ c, HabitCompletionsRow.habit_id c
                     ∉ HabitsRow.id <$>
                         filter (λ r, HabitsRow.id r = id
                                      ∧ HabitsRow.user_id r = u)
                           (Store.habits (Store.tables w)))
        (Store.habit_completions (Store.tables w)).
Proof.
  unfold deleteHabit. step_serve; [done|]. by injection Hans as <- <-.
Qed.

(** X20: deleting a habit cascades.  After an answered deleteHabit(id) no
    local habit has that identifier and the store holds no row of the user
    with it; every other row of the habits table is kept; if the user owned
    such a row, no completion row refers to the identifier any more, while
    the completion rows of other habits are all kept; and a fetchData that
    follows and is answered loads no habit with that identifier. *)
Theorem deleteHabit_cascade (w : Store.World) (st : Hook) (u id : string) :
  let o := run Store.serve (deleteHabit (Some u) id) w st in
  let o' := run Store.serve (fetchData (Some u)) (server o) (final o) in
  allSucceeded (trace o) = true →
  (∀ h, h ∈ habits (data (final o)) → Habit.id h ≠ id)
  ∧ (∀ row, row ∈ Store.habits (Store.tables (server o)) ↔
       row ∈ Store.habits (Store.tables w)
       ∧ ¬ (HabitsRow.id row = id ∧ HabitsRow.user_id row = u))
  ∧ ((∃ row, row ∈ Store.habits (Store.tables w)
             ∧ HabitsRow.id row = id ∧ HabitsRow.user_id row = u) →
     ∀ c, c ∈ Store.habit_completions (Store.tables (server o)) →
          HabitCompletionsRow.habit_id c ≠ id)
  ∧ (∀ c, c ∈ Store.habit_completions (Store.tables w) →
          HabitCompletionsRow.habit_id c ≠ id →
          c ∈ Store.habit_completions (Store.tables (server o)))
  ∧ (allSucceeded (trace o') = true →
     ∀ h, h ∈ habits (data (final o')) → Habit.id h ≠ id).
Proof.
  intros o o' Hok.
  destruct (deleteHabit_answered w st u id Hok) as (Hlocal & Hrows & Hcomps).
  fold o in Hlocal, Hrows, Hcomps. split_and!.
  - intros h. rewrite Hlocal. by intros [Hne _]%list_elem_of_filter.
  - intros row. rewrite Hrows, list_elem_of_filter. tauto.
  - intros (row & Hrow & Hid & Hu) c. rewrite Hcomps.
    intros [Hn Hc]%list_elem_of_filter Hcid. apply Hn.
    apply list_elem_of_fmap. exists row. split; [congruence|].
    by apply list_elem_of_filter.
  - intros c Hc Hne. rewrite Hcomps. apply list_elem_of_filter.
    split; [|done].
    intros (row & Heq & [[Hid _] _]%list_elem_of_filter)%list_elem_of_fmap.
    congruence.
  - intros Hok' h Hh.
    destruct (fetchData_answered (server o) (final o) u Hok') as [_ Hloaded].
    fold o' in Hloaded. rewrite Hloaded in Hh.
    destruct (habitsWithCompletions_mirrors (Store.tables (server o)) u)
      as [Howned _].
    destruct (Howned h Hh) as (row & Hrow & Hid & Hu).
    rewrite Hrows in Hrow. apply list_elem_of_filter in Hrow as [Hn _].
    intros Heq. apply Hn. split; congruence.
Qed.

(** X21: on the add callbacks the two hooks agree once the local one is
    given the identifier and the timestamp the store chose: an answered
    addHabit of useHabitsDb leaves the collections useHabits.addHabit
    gives, and an answered addTask those of useHabits.addTask for the colour
    with the empty string read as absent.  An answered addNote puts the same
    note at the head of the list, where useHabits puts it at the end. *)
Theorem add_callbacks_agree (w : Store.World) (st : Hook) (u : string) :
  let e := Store.oracle w (Store.clock w) in
  let uuid := Store.gen_random_uuid e in
  let now := Store.now e in
  (∀ name color,
     let o := run Store.serve (addHabit (Some u) name color) w st in
     allSucceeded (trace o) = true →
     data (final o) = UseHabits.addHabit uuid now name color (data st))
  ∧ (∀ title date color,
     let o := run Store.serve (addTask (Some u) title date color) w st in
     allSucceeded (trace o) = true →
     data (final o)
     = UseHabits.addTask uuid title date (colorOrUndefined color) (data st))
  ∧ (∀ content date,
     let o := run Store.serve (addNote (Some u) content date) w st in
     allSucceeded (trace o) = true →
     notes (data (final o))
     = Note.mk uuid content date now :: notes (data st)
     ∧ notes (UseHabits.addNote uuid now content date (data st))
       = notes (data st) ++ [Note.mk uuid content date now]).
Proof.
  split_and!; intros; subst o;
    match goal with Hok : allSucceeded _ = true |- _ => revert Hok end;
    [unfold addHabit|unfold addTask|unfold addNote];
    simpl; unfold Store.serve;
    (destruct (Store.unavailable _); [by intros [=]|]); simpl;
    (destruct (decide _); [by intros [=]|]); simpl; by intros _.
Qed.

End MirrorFacts.

(** ** The forms and the summaries *)
Section FormFacts.
Import UseHabitsDb.

(** X22: of the tasks of a day the calendar cell shows the first three as
    dots and counts the others: the dots are a prefix of the day's tasks, at
    most three, the dots and the count beside them add up to the tasks of the
    day, and no count is shown exactly when every task has its dot. *)
Theorem dots_and_more (dayTasks : list CalendarTask.t) :
  CalendarView.dots dayTasks `prefix_of` dayTasks
  ∧ (length (CalendarView.dots dayTasks) ≤ 3)%nat
  ∧ (length (CalendarView.dots dayTasks)
     + default 0%nat (CalendarView.more dayTasks) = length dayTasks)%nat
  ∧ (CalendarView.more dayTasks = None
     ↔ CalendarView.dots dayTasks = dayTasks).
Proof.
  unfold CalendarView.dots, CalendarView.more. split_and!.
  - exists (drop 3 dayTasks). by rewrite take_drop.
  - rewrite length_take. lia.
  - rewrite length_take. case_decide; cbv [from_option id]; lia.
  - case_decide as Hlen; split; try done.
    + intros Heq. apply (f_equal length) in Heq.
      rewrite length_take in Heq. lia.
    + intros _. apply take_ge. lia.
Qed.

Lemma grid_hours_checked (h : Qc) :
  h ∈ SleepTracker.SLEEP_HOURS → Store.hoursCheck h.
Proof.
  unfold SleepTracker.SLEEP_HOURS. cbn [fmap list_fmap]. intros Hh.
  repeat (apply elem_of_cons in Hh as [->|Hh]); try compute_done.
  by apply elem_of_nil in Hh.
Qed.

Lemma grid_row_selected (h : Qc) :
  h ∈ SleepTracker.SLEEP_HOURS →
  filter (λ h', h' = h) SleepTracker.SLEEP_HOURS = [h].
Proof.
  unfold SleepTracker.SLEEP_HOURS. cbn [fmap list_fmap]. intros Hh.
  repeat (apply elem_of_cons in Hh as [->|Hh]); try compute_done.
  by apply elem_of_nil in Hh.
Qed.

(** X23: a click on a cell of the sleep grid, through the remote-backed hook
    and the store.  The rows of the grid are all within the CHECK on hours,
    so the store refuses the click only when it cannot be reached or when the
    identifier drawn for a new row is taken; and once the click is answered,
    exactly one cell of the day's column is selected, the clicked one. *)
Theorem grid_click (w : Store.World) (st : Hook) (u d : string) (h : Qc) :
  h ∈ SleepTracker.SLEEP_HOURS →
  let o := run Store.serve (addSleepEntry (Some u) d h) w st in
  let e := Store.oracle w (Store.clock w) in
  (allSucceeded (trace o) = false →
   Store.unavailable e = true
   ∨ Store.gen_random_uuid e
       ∈ SleepEntriesRow.id <$> Store.sleep_entries (Store.tables w))
  ∧ (allSucceeded (trace o) = true →
     filter (λ h', SleepTracker.isSelected
                     (sleepEntries (data (final o))) d h' = true)
       SleepTracker.SLEEP_HOURS = [h]).
Proof.
  intros Hh o e. split.
  - subst o e. unfold addSleepEntry. simpl. unfold Store.serve.
    destruct (Store.unavailable _); [by left|]. simpl.
    rewrite decide_True by (by apply grid_hours_checked).
    destruct (list_find _ _) as [[i old]|]; [by intros [=]|].
    destruct (decide _) as [Hin|]; [by right|by intros [=]].
  - intros Hok. subst o.
    rewrite (run_addSleepEntry Store.serve w st u d h Hok).
    rewrite <-(grid_row_selected h Hh). apply list_filter_iff. intros h'.
    unfold SleepTracker.isSelected.
    rewrite getSleepForDate_written, bool_decide_eq_true.
    split; [by intros [= ->]|by intros ->].
Qed.

Lemma completionRate_new_habit (c t : Z) :
  0 ≤ c ≤ t → 0 < t →
  (200 * c + (t + 1)) / (2 * (t + 1)) ≤ (200 * c + t) / (2 * t).
Proof.
  intros Hc Ht. apply Z.div_le_lower_bound; [lia|].
  pose proof (Z.mul_div_le (200 * c + (t + 1)) (2 * (t + 1)) ltac:(lia)).
  pose proof (Z.div_pos (200 * c + (t + 1)) (2 * (t + 1)) ltac:(lia)
                ltac:(lia)).
  nia.
Qed.

(** X24: the add form of the habit grid.  With a blank name nothing is
    called and nothing changes.  Otherwise the hook is asked for a habit of
    the trimmed name and the chosen colour, the form is reset (empty name,
    first colour of the palette, dialog closed), the new habit comes last and
    has no completion, every other collection is as before, the number of
    habits completed today is unchanged and the completion rate of today
    does not rise. *)
Theorem handleAddHabit_effect (trim : string → string)
    (s : HabitGrid.State) (c : Collections) (uuid : string) (now : Date)
    (today : string) :
  let result := HabitGrid.handleAddHabit trim s in
  let after := HabitGrid.perform uuid now (snd result) c in
  if decide (trim (HabitGrid.newHabitName s) = EmptyString)
  then result = (s, None) ∧ after = c
  else
    HabitGrid.newHabitName (fst result) = EmptyString
    ∧ HabitGrid.newHabitColor (fst result) = "hsl(12 76% 61%)"
    ∧ HabitGrid.isAddDialogOpen (fst result) = false
    ∧ habits after
      = habits c ++ [Habit.mk uuid (trim (HabitGrid.newHabitName s))
                       (HabitGrid.newHabitColor s) now []]
    ∧ sleepEntries after = sleepEntries c
    ∧ tasks after = tasks c
    ∧ notes after = notes c
    ∧ Dashboard.completedToday (habits after) today
      = Dashboard.completedToday (habits c) today
    ∧ Dashboard.completionRate (habits after) today
      ≤ Dashboard.completionRate (habits c) today.
Proof.
  intros result after. subst after result. unfold HabitGrid.handleAddHabit.
  destruct (decide (trim (HabitGrid.newHabitName s) = EmptyString))
    as [He|He].
  { by rewrite decide_False by (intros Hne; by apply Hne). }
  rewrite decide_True by done. simpl.
  assert (Hsame : ∀ h0,
    Dashboard.completedToday (habits c ++ [Habit.mk uuid h0
      (HabitGrid.newHabitColor s) now []]) today
    = Dashboard.completedToday (habits c) today).
  { intros h0. unfold Dashboard.completedToday.
    by rewrite filter_app, filter_cons_False, filter_nil, app_nil_r. }
  split_and!; try done.
  pose proof (completedToday_le (habits c) today) as Hc.
  destruct (decide (Dashboard.totalHabits (habits c) > 0)) as [Ht|Ht].
  - rewrite (completionRate_pos (habits c)) by done.
    rewrite completionRate_pos, Hsame.
    + unfold Dashboard.totalHabits in *.
      rewrite length_app, Nat2Z.inj_add. simpl.
      apply completionRate_new_habit; lia.
    + unfold Dashboard.totalHabits. rewrite length_app. simpl. lia.
  - assert (Hnil : habits c = []).
    { unfold Dashboard.totalHabits in Ht.
      destruct (habits c); [done|]. simpl in Ht. lia. }
    rewrite Hnil. by vm_compute.
Qed.

(** X25: opening the edit dialog of a habit and saving at once changes
    nothing: when the habits have pairwise distinct identifiers and the name
    of the habit is not blank and has no space to trim, the collections are
    as before and the dialog is closed. *)
Theorem startEditing_save_unchanged (trim : string → string)
    (s : HabitGrid.State) (c : Collections) (habit : Habit.t)
    (uuid : string) (now : Date) :
  NoDup (Habit.id <$> habits c) →
  habit ∈ habits c →
  trim (Habit.name habit) = Habit.name habit →
  Habit.name habit ≠ EmptyString →
  let result :=
    HabitGrid.handleEditHabit trim (HabitGrid.startEditing habit s) in
  HabitGrid.perform uuid now (snd result) c = c
  ∧ HabitGrid.editingHabit (fst result) = None.
Proof.
  intros Hids Hin Htrim Hname result. subst result.
  unfold HabitGrid.handleEditHabit, HabitGrid.startEditing. simpl.
  rewrite Htrim, decide_True by done. simpl. split; [|done].
  destruct c as [hs ss ts ns]. unfold UseHabits.updateHabit, setHabits.
  simpl in *. f_equal. rewrite <-(list_fmap_id hs) at 2.
  apply Forall_fmap_ext, Forall_forall. intros a Ha. simpl.
  destruct (decide (Habit.id a = Habit.id habit)) as [Hid|]; [|done].
  assert (a = habit) as ->.
  { apply list_elem_of_lookup in Ha as [i Hi].
    apply list_elem_of_lookup in Hin as [j Hj].
    assert (i = j) as ->; [|congruence].
    eapply (NoDup_lookup _ _ _ (Habit.id habit) Hids);
      rewrite list_lookup_fmap; [rewrite Hi|rewrite Hj]; simpl; congruence. }
  by destruct habit.
Qed.

End FormFacts.

Section SummaryFacts.
Import Analytics.

Lemma Math_round_quotient (a b : Z) :
  b > 0 →
  Dashboard.Math_round (inject_Z a / inject_Z b)%Q = (2 * a + b) / (2 * b).
Proof.
  intros Hb. destruct b as [|p|p]; try lia.
  unfold Dashboard.Math_round, Qfloor, Qdiv, Qinv, Qmult, Qplus, inject_Z.
  simpl. rewrite Pos.mul_1_l, Pos2Z.inj_mul. f_equal; lia.
Qed.

Lemma foldl_rates (stats : list HabitStat) (acc : Z) :
  foldl (λ sum h, sum + completionRate h) acc stats
  = acc + foldr Z.add 0 (completionRate <$> stats).
Proof.
  revert acc. induction stats as [|s stats IH]; intros acc;
    cbn [foldl foldr fmap list_fmap]; [lia|].
  rewrite IH. lia.
Qed.

Lemma foldl_lengths (habits : list Habit.t) (acc : Z) :
  foldl (λ sum h, sum + Z.of_nat (length (Habit.completedDays h))) acc habits
  = acc + foldr Z.add 0
            ((λ h, Z.of_nat (length (Habit.completedDays h))) <$> habits).
Proof.
  revert acc. induction habits as [|h habits IH]; intros acc;
    cbn [foldl foldr fmap list_fmap]; [lia|].
  rewrite IH. lia.
Qed.

(** X26: the summary of the analytics page.  The pie chart has one slice
    per habit, in the order of the habits and also for a habit never
    completed, and the total of completions is the sum of the slices.  The
    average completion rate is 0 without habits; otherwise it lies between
    any two integers that bound the 30-day rates of all habits. *)
Theorem analytics_summary (format : string → Z → string)
    (habits : list Habit.t) (today : Z) :
  let stats := habitStats format habits today in
  (λ slice, slice.1.1) <$> pieData stats = Habit.name <$> habits
  ∧ totalCompletions habits
    = foldr Z.add 0 ((λ slice, slice.1.2) <$> pieData stats)
  ∧ (habits = [] → avgCompletionRate stats = 0)
  ∧ (∀ lo hi, habits ≠ [] →
       Forall (λ stat, lo ≤ completionRate stat ≤ hi) stats →
       lo ≤ avgCompletionRate stats ≤ hi).
Proof.
  intros stats. split_and!.
  - subst stats. unfold pieData, habitStats.
    rewrite <-!list_fmap_compose. by apply list_fmap_ext.
  - unfold totalCompletions. rewrite foldl_lengths. subst stats.
    unfold pieData, habitStats. rewrite <-!list_fmap_compose. simpl.
    f_equal.
  - intros ->. done.
  - intros lo hi Hne Hall. unfold avgCompletionRate.
    assert (Hlen : (0 < length stats)%nat).
    { subst stats. unfold habitStats. rewrite length_fmap.
      destruct habits; [done|simpl; lia]. }
    rewrite decide_True by done. cbv zeta.
    rewrite Math_round_quotient by lia. rewrite foldl_rates, Z.add_0_l.
    assert (Hsum : lo * Z.of_nat (length stats)
                   ≤ foldr Z.add 0 (completionRate <$> stats)
                   ≤ hi * Z.of_nat (length stats)).
    { clear Hlen. induction Hall as [|stat l Hstat _ IH]; [simpl; lia|].
      cbn [fmap list_fmap foldr length]. rewrite Nat2Z.inj_succ. lia. }
    set (n := Z.of_nat (length stats)) in *.
    set (sum := foldr Z.add 0 (completionRate <$> stats)) in *.
    assert (Hn : 0 < n) by lia.
    split.
    + apply Z.div_le_lower_bound; lia.
    + apply Z.lt_succ_r, Z.div_lt_upper_bound; lia.
Qed.

End SummaryFacts.

(** ** More examples *)
Section MoreExamples.
Import UseHabitsDb Client.


Lemma useHabits_add_delete_witness :
  let c := data Sample.loaded in
  UseHabits.deleteHabit "h9" (UseHabits.addHabit "h9" 9 "Walk" "#00f" c) = c
  ∧ UseHabits.deleteTask "h9"
      (UseHabits.addTask "h9" "Shop" Sample.today None c) = c
  ∧ UseHabits.deleteNote "h9"
      (UseHabits.addNote "h9" 9 "third" Sample.today c) = c.
Proof.
  destruct (useHabits_add_delete (data Sample.loaded) "h9" 9 "Walk" "#00f"
              None) as (Hh & _).
  destruct (useHabits_add_delete (data Sample.loaded) "h9" 9 "Shop"
              Sample.today None) as (_ & Ht & _).
  destruct (useHabits_add_delete (data Sample.loaded) "h9" 9 "third"
              Sample.today None) as (_ & _ & Hn).
  split_and!; [apply Hh|apply Ht|apply Hn]; compute_done.
Defined.

Lemma useHabits_addSleepEntry_last_wins_witness :
  NoDup (SleepEntry.date <$>
           sleepEntries
             (UseHabits.addSleepEntry Sample.today (Qc_of_Z 8)
                (data Sample.loaded))).
Proof.
  destruct (useHabits_addSleepEntry_last_wins (data Sample.loaded)
              Sample.today (Qc_of_Z 8) (Qc_of_Z 6)) as (_ & _ & Hnd).
  apply Hnd. compute_done.
Defined.

Lemma toggleCompleted_twice_witness :
  let task := CalendarTask.mk "t1" "Shop" Sample.today false None in
  let other := CalendarTask.mk "t2" "Call" Sample.today true (Some "#f00") in
  let c := mkCollections [] [] [task; other] [] in
  let once := UseHabits.updateTask "t1" (CalendarView.toggleCompleted task) c in
  let ticked := spread_task task (CalendarView.toggleCompleted task) in
  ticked ∈ tasks once
  ∧ CalendarTask.completed ticked = true
  ∧ Forall2 (λ a b, a ≠ task → b = a) (tasks c) (tasks once)
  ∧ UseHabits.updateTask "t1" (CalendarView.toggleCompleted ticked) once = c.
Proof.
  apply (toggleCompleted_twice
           (mkCollections [] []
              [CalendarTask.mk "t1" "Shop" Sample.today false None;
               CalendarTask.mk "t2" "Call" Sample.today true (Some "#f00")]
              [])
           (CalendarTask.mk "t1" "Shop" Sample.today false None));
    compute_done.
Defined.

Lemma fetchData_outcome_witness :
  let o := run Store.serve (fetchData (Some Sample.user)) Sample.world
             initialHook in
  let o' := run Store.serve (fetchData (Some Sample.user)) Sample.offline
              Sample.loaded in
  (initialLoadComplete (final o) = true
   ∧ length (remoteCalls (trace o)) = 5%nat)
  ∧ data (final o') = data Sample.loaded.
Proof.
  destruct (fetchData_outcome Store.serve Sample.world initialHook
              Sample.user) as (_ & _ & Hok & _).
  destruct (fetchData_outcome Store.serve Sample.offline Sample.loaded
              Sample.user) as (_ & _ & _ & Hfail).
  split.
  - apply Hok. vm_compute. reflexivity.
  - apply Hfail; [vm_compute; reflexivity|vm_compute; lia].
Defined.

Lemma callback_frame_witness :
  let c := CallAddSleepEntry Sample.today (Qc_of_Z 8) in
  let o := run Store.serve (program (Some Sample.user) Sample.loaded c)
             Sample.world Sample.loaded in
  (habits (data (final o)) = habits (data Sample.loaded)
   ∧ tasks (data (final o)) = tasks (data Sample.loaded)
   ∧ notes (data (final o)) = notes (data Sample.loaded))
  ∧ loading (final o) = loading Sample.loaded
  ∧ initialLoadComplete (final o) = initialLoadComplete Sample.loaded
  ∧ (length (remoteCalls (trace o)) ≤ 1)%nat.
Proof.
  apply (callback_frame Store.serve Sample.world Sample.loaded
           (Some Sample.user) (CallAddSleepEntry Sample.today (Qc_of_Z 8))).
  reflexivity.
Defined.


Lemma fetchData_loads_owner_witness :
  let o := run Store.serve (fetchData (Some Sample.user)) Sample.world
             initialHook in
  Mirror.mirrors (Store.tables Sample.world) (Some Sample.user) (final o)
  ∧ sleepEntries (data (final o))
    = [SleepEntry.mk Sample.yesterday (Qc_of_Z 7)].
Proof.
  destruct (fetchData_loads_owner Sample.world initialHook Sample.user)
    as (_ & Hok).
  destruct Hok as (Hm & _ & Hs); [vm_compute; reflexivity|].
  split; [exact Hm|]. rewrite Hs. vm_compute. reflexivity.
Defined.


Lemma deleteHabit_cascade_witness :
  let o := run Store.serve (deleteHabit (Some Sample.user) "b")
             Sample.world Sample.loaded in
  let o' := run Store.serve (fetchData (Some Sample.user)) (server o)
              (final o) in
  (∀ h, h ∈ habits (data (final o)) → Habit.id h ≠ "b")
  ∧ (∀ c, c ∈ Store.habit_completions (Store.tables (server o)) →
          HabitCompletionsRow.habit_id c ≠ "b")
  ∧ (∀ h, h ∈ habits (data (final o')) → Habit.id h ≠ "b").
Proof.
  destruct (deleteHabit_cascade Sample.world Sample.loaded Sample.user "b")
    as (Hlocal & _ & Hcascade & _ & Hfetch); [vm_compute; reflexivity|].
  split_and!; [exact Hlocal| |].
  - apply Hcascade. exists (HabitsRow.mk "b" Sample.user "Run" "#0f0" 2).
    split_and!; [|reflexivity..].
    apply list_elem_of_further, list_elem_of_here.
  - apply Hfetch. vm_compute. reflexivity.
Defined.

Lemma add_callbacks_agree_witness :
  let o := run Store.serve (addHabit (Some Sample.user) "Walk" "#00f")
             Sample.world Sample.loaded in
  let o' := run Store.serve
              (addTask (Some Sample.user) "Shop" Sample.today
                 (Some EmptyString))
              Sample.world Sample.loaded in
  data (final o)
  = UseHabits.addHabit "id10" 10 "Walk" "#00f" (data Sample.loaded)
  ∧ data (final o')
    = UseHabits.addTask "id10" "Shop" Sample.today None (data Sample.loaded).
Proof.
  destruct (add_callbacks_agree Sample.world Sample.loaded Sample.user)
    as (Hh & Ht & _).
  split.
  - apply (Hh "Walk" "#00f"). vm_compute. reflexivity.
  - apply (Ht "Shop" Sample.today (Some EmptyString)). vm_compute.
    reflexivity.
Defined.

Lemma grid_click_witness :
  let o := run Store.serve
             (addSleepEntry (Some Sample.user) Sample.today (Qc_of_Z 8))
             Sample.world Sample.loaded in
  filter (λ h', SleepTracker.isSelected
                  (sleepEntries (data (final o))) Sample.today h' = true)
    SleepTracker.SLEEP_HOURS = [Qc_of_Z 8].
Proof.
  destruct (grid_click Sample.world Sample.loaded Sample.user Sample.today
              (Qc_of_Z 8)) as [_ Hsel]; [compute_done|].
  apply Hsel. vm_compute. reflexivity.
Defined.

Lemma startEditing_save_unchanged_witness :
  let s := HabitGrid.mkState EmptyString "hsl(12 76% 61%)" false None
             EmptyString EmptyString in
  let result :=
    HabitGrid.handleEditHabit (λ name, name)
      (HabitGrid.startEditing Sample.read s) in
  HabitGrid.perform "h9" 9 (snd result) (data Sample.loaded)
  = data Sample.loaded
  ∧ HabitGrid.editingHabit (fst result) = None.
Proof.
  apply (startEditing_save_unchanged (λ name, name)
           (HabitGrid.mkState EmptyString "hsl(12 76% 61%)" false None
              EmptyString EmptyString)
           (data Sample.loaded) Sample.read "h9" 9).
  - compute_done.
  - compute_done.
  - reflexivity.
  - discriminate.
Defined.

Lemma analytics_summary_witness :
  let format := λ (_ : string) (n : Z), DateFns.yyyy_MM_dd n in
  let stats :=
    Analytics.habitStats format (habits (data Sample.loaded)) 20759 in
  0 ≤ Analytics.avgCompletionRate stats ≤ 100.
Proof.
  destruct (analytics_summary (λ (_ : string) (n : Z), DateFns.yyyy_MM_dd n)
              (habits (data Sample.loaded)) 20759) as (_ & _ & _ & Havg).
  apply Havg; [discriminate|]. compute_done.
Defined.

End MoreExamples.
